(** * Swarm framework: registry, conversation state, invocation, persistence

    A shallow embedding of [swarm_framework.py] (classes [Agent], [Message],
    [SwarmResult] and [Swarm]) and the properties of its state container.

    Python objects that the program shares and mutates (the context
    dictionary and the containers stored in it) live in an explicit heap;
    exceptions are an [outcome]; every method is a state transformer over
    the pair of the [Swarm] object and the surrounding [World] (heap, file
    system, clock, environment and the remote completion service).
    [print] calls only write to the terminal and are left out. *)

From Stdlib Require Import Floats.PrimFloat.
From stdpp Require Import base option list strings gmap.

Set Warnings "-register-all,-inexact-float".

Local Open Scope string_scope.
Local Open Scope list_scope.
Local Open Scope Z_scope.

(** ** Exceptions and outcomes *)

(** The exception classes the program meets; all of them derive from
    Python's [Exception].  [OutOfModel] is not a Python class: it marks a
    state that no execution of the typed program reaches (a dangling
    reference, a value outside the annotated type of a field). *)
Inductive exn_class :=
  | ValueError
  | TypeError
  | IndexError
  | KeyError
  | AttributeError
  | RecursionError
  | FileNotFoundError
  | JSONDecodeError
  | OpenAIError
  | OutOfModel.

Record exn := Exn { exn_cls : exn_class; exn_msg : string }.

(** [str(e)] *)
Definition str (e : exn) : string := exn_msg e.

Inductive outcome (A : Type) :=
  | Ok (a : A)
  | Raise (e : exn).
Arguments Ok {A} a.
Arguments Raise {A} e.

(** State and exception monad: a raised exception keeps the state reached
    so far, as in Python. *)
Definition M (S A : Type) : Type := S → outcome A * S.

Definition ret {S A} (a : A) : M S A := λ s, (Ok a, s).

Definition bind {S A B} (m : M S A) (k : A → M S B) : M S B :=
  λ s, match m s with
       | (Ok a, s') => k a s'
       | (Raise e, s') => (Raise e, s')
       end.

Definition raise {S A} (e : exn) : M S A := λ s, (Raise e, s).

(** [try: body  except Exception as e: handler e] *)
Definition try_except {S A} (body : M S A) (handler : exn → M S A) : M S A :=
  λ s, match body s with
       | (Ok a, s') => (Ok a, s')
       | (Raise e, s') => handler e s'
       end.

Definition get {S} : M S S := λ s, (Ok s, s).
Definition modify {S} (f : S → S) : M S unit := λ s, (Ok tt, f s).
Definition lift_outcome {S A} (o : outcome A) : M S A := λ s, (o, s).

Declare Scope py_scope.
Delimit Scope py_scope with py.
Notation "x <- m ;; k" := (bind m (λ x, k))
  (at level 100, m at next level, right associativity) : py_scope.
Notation "m ;;; k" := (bind m (λ _, k))
  (at level 100, right associativity) : py_scope.
Local Open Scope py_scope.

(** [for x in xs: body x] *)
Fixpoint for_each {S A} (body : A → M S unit) (xs : list A) : M S unit :=
  match xs with
  | [] => ret tt
  | x :: xs' => body x ;;; for_each body xs'
  end.

Definition omap {A B} (f : A → B) (o : outcome A) : outcome B :=
  match o with Ok a => Ok (f a) | Raise e => Raise e end.

Section Traverse.
Context {A B : Type} (f : A → outcome B).

(** Left-to-right traversal that stops at the first exception. *)
Fixpoint traverse (xs : list A) : outcome (list B) :=
  match xs with
  | [] => Ok []
  | x :: xs' =>
      match f x with
      | Raise e => Raise e
      | Ok y => omap (cons y) (traverse xs')
      end
  end.
End Traverse.

(** ** Python dictionaries with string keys

    Insertion ordered: assigning to a key that is present replaces the
    value in place, assigning to a new key appends the entry. *)
Module PyDict.

Definition t (V : Type) : Type := list (string * V).

Definition empty {V} : t V := [].

Fixpoint get {V} (k : string) (d : t V) : option V :=
  match d with
  | [] => None
  | (k', v) :: d' => if decide (k' = k) then Some v else get k d'
  end.

(** [d[k] = v] *)
Fixpoint set {V} (k : string) (v : V) (d : t V) : t V :=
  match d with
  | [] => [(k, v)]
  | (k', v') :: d' =>
      if decide (k' = k) then (k', v) :: d' else (k', v') :: set k v d'
  end.

(** [del d[k]] *)
Fixpoint del {V} (k : string) (d : t V) : t V :=
  match d with
  | [] => []
  | (k', v') :: d' => if decide (k' = k) then d' else (k', v') :: del k d'
  end.

(** [k in d] *)
Definition mem {V} (k : string) (d : t V) : bool :=
  match get k d with Some _ => true | None => false end.

(** [list(d.keys())] *)
Definition keys {V} (d : t V) : list string := d.*1.

(** [d.update(other)] *)
Definition update {V} (d other : t V) : t V :=
  fold_left (λ acc kv, set kv.1 kv.2 acc) other d.

(** The dictionary built from a sequence of pairs, later pairs winning. *)
Definition of_pairs {V} (kvs : list (string * V)) : t V := update empty kvs.

End PyDict.

(** [obj[start:]] on a list *)
Definition slice_from {A} (start : Z) (l : list A) : list A :=
  let n := Z.of_nat (length l) in
  let i := if start <? 0 then Z.max 0 (start + n) else Z.min start n in
  drop (Z.to_nat i) l.

(** ** Values, heap objects and JSON documents *)

Abbreviation loc := nat.

(** What a variable or a container slot holds: an immutable scalar, a
    function object, or a reference to a mutable container in the heap. *)
Inductive value :=
  | VNone
  | VBool (b : bool)
  | VInt (z : Z)
  | VFloat (f : float)
  | VStr (s : string)
  | VCallable (id : nat)
  | VRef (l : loc).

Inductive obj :=
  | OList (items : list value)
  | ODict (entries : PyDict.t value).

Abbreviation heap := (list obj).

(** Containers built on the spot that nothing else refers to: the
    dictionaries returned by [asdict], the [state] literal of [save_state],
    a dictionary passed as keyword arguments. *)
Inductive pyobj :=
  | PVal (v : value)
  | PList (items : list pyobj)
  | PDict (entries : list (string * pyobj)).

Inductive json :=
  | JNull
  | JBool (b : bool)
  | JInt (z : Z)
  | JFloat (f : float)
  | JStr (s : string)
  | JList (items : list json)
  | JObj (members : list (string * json)).

(** [copy.deepcopy] as [dataclasses.asdict] applies it to a field value:
    the containers reached from [v] are rebuilt, so the copy shares
    nothing with the heap.  A reference chain in a heap of [n] objects
    that is longer than [n] goes round a cycle, on which Python recurses
    until [RecursionError]. *)
Fixpoint deepcopy (fuel : nat) (h : heap) (v : value) : outcome pyobj :=
  match v with
  | VRef l =>
      match fuel with
      | O => Raise (Exn RecursionError "maximum recursion depth exceeded")
      | S fuel' =>
          match h !! l with
          | None => Raise (Exn OutOfModel "dangling reference")
          | Some (OList items) => omap PList (traverse (deepcopy fuel' h) items)
          | Some (ODict entries) =>
              omap PDict
                (traverse (λ kv, omap (pair kv.1) (deepcopy fuel' h kv.2)) entries)
          end
      end
  | _ => Ok (PVal v)
  end.

(** ** The [json] module

    [json.dump] walks the object and fails on the first thing it cannot
    write: a function object ([TypeError]) or a container met again on the
    path from the root ([ValueError], through the encoder's [markers]). *)
Fixpoint encode_value (fuel : nat) (h : heap) (markers : list loc) (v : value)
  : outcome json :=
  match v with
  | VNone => Ok JNull
  | VBool b => Ok (JBool b)
  | VInt z => Ok (JInt z)
  | VFloat f => Ok (JFloat f)
  | VStr s => Ok (JStr s)
  | VCallable _ =>
      Raise (Exn TypeError "Object of type function is not JSON serializable")
  | VRef l =>
      match fuel with
      | O => Raise (Exn RecursionError "maximum recursion depth exceeded")
      | S fuel' =>
          if bool_decide (l ∈ markers)
          then Raise (Exn ValueError "Circular reference detected")
          else
            match h !! l with
            | None => Raise (Exn OutOfModel "dangling reference")
            | Some (OList items) =>
                omap JList (traverse (encode_value fuel' h (l :: markers)) items)
            | Some (ODict entries) =>
                omap JObj
                  (traverse
                     (λ kv, omap (pair kv.1)
                              (encode_value fuel' h (l :: markers) kv.2))
                     entries)
            end
      end
  end.

Fixpoint encode (h : heap) (o : pyobj) : outcome json :=
  match o with
  | PVal v => encode_value (S (length h)) h [] v
  | PList items => omap JList (traverse (encode h) items)
  | PDict entries =>
      omap JObj (traverse (λ kv, omap (pair kv.1) (encode h kv.2)) entries)
  end.

(** [json.load] builds fresh containers: each JSON array and object is
    allocated at the end of the heap, members first. *)
Fixpoint decode (j : json) (h : heap) : value * heap :=
  match j with
  | JNull => (VNone, h)
  | JBool b => (VBool b, h)
  | JInt z => (VInt z, h)
  | JFloat f => (VFloat f, h)
  | JStr s => (VStr s, h)
  | JList items =>
      let '(vs, h') :=
        (fix go (js : list json) (h : heap) : list value * heap :=
           match js with
           | [] => ([], h)
           | j :: js' =>
               let '(v, h1) := decode j h in
               let '(vs, h2) := go js' h1 in
               (v :: vs, h2)
           end) items h in
      (VRef (List.length h'), h' ++ [OList vs])
  | JObj members =>
      let '(kvs, h') :=
        (fix go (ms : list (string * json)) (h : heap)
           : list (string * value) * heap :=
           match ms with
           | [] => ([], h)
           | (k, j) :: ms' =>
               let '(v, h1) := decode j h in
               let '(kvs, h2) := go ms' h1 in
               ((k, v) :: kvs, h2)
           end) members h in
      (VRef (List.length h'), h' ++ [ODict (PyDict.of_pairs kvs)])
  end.

(** [obj[key]] on a parsed document. *)
Definition subscript (j : json) (key : string) : outcome json :=
  match j with
  | JObj members =>
      match PyDict.get key (PyDict.of_pairs members) with
      | Some v => Ok v
      | None => Raise (Exn KeyError ("'" +:+ key +:+ "'"))
      end
  | _ => Raise (Exn TypeError "indices must be integers or object is not subscriptable")
  end.

(** [obj.items()] on a parsed document. *)
Definition items (j : json) : outcome (list (string * json)) :=
  match j with
  | JObj members => Ok (PyDict.of_pairs members)
  | _ => Raise (Exn AttributeError "object has no attribute 'items'")
  end.

(** [for x in obj] on a parsed document: a list yields its elements, a
    dictionary its keys, a string its characters. *)
Definition iterate (j : json) : outcome (list json) :=
  match j with
  | JList xs => Ok xs
  | JObj members => Ok (JStr <$> PyDict.keys (PyDict.of_pairs members))
  | JStr s => Ok ((λ c, JStr (String c EmptyString)) <$> String.list_ascii_of_string s)
  | _ => Raise (Exn TypeError "object is not iterable")
  end.

(** ** The world around the program *)

(** One turn of an outbound request: [{"role": ..., "content": ...}]. *)
Record turn := Turn { turn_role : string; turn_content : string }.

(** The keyword arguments of [client.chat.completions.create]. *)
Record request := Request {
  req_model : string;
  req_messages : list turn;
  req_temperature : float;
  req_max_tokens : Z
}.

(** What the remote service answers: a response object with its list of
    choices (each reduced to [message.content]), or an exception. *)
Inductive reply :=
  | Completion (choices : list string)
  | Failure (e : exn).

(** A file holds a JSON document, or text that is not one (an empty or
    truncated file). *)
Inductive file :=
  | FDocument (doc : json)
  | FMalformed.

Record World := mkWorld {
  w_heap : heap;
  w_fs : gmap string file;
  (** [datetime.now().isoformat()]: the reading at each successive call *)
  w_now : nat → string;
  w_ticks : nat;
  (** the remote service answers a request knowing the earlier ones *)
  w_remote : list request → request → reply;
  w_calls : list request;
  (** [os.getenv] *)
  w_environ : string → option string
}.

Definition set_heap (f : heap → heap) (w : World) : World :=
  mkWorld (f (w_heap w)) (w_fs w) (w_now w) (w_ticks w) (w_remote w)
          (w_calls w) (w_environ w).

Definition set_fs (f : gmap string file → gmap string file) (w : World) : World :=
  mkWorld (w_heap w) (f (w_fs w)) (w_now w) (w_ticks w) (w_remote w)
          (w_calls w) (w_environ w).

(** Creates an object and returns the reference to it. *)
Definition alloc (o : obj) : M World loc :=
  λ w, (Ok (List.length (w_heap w)), set_heap (λ h, h ++ [o]) w).

(** The entries of the dictionary a variable annotated [Dict[str, Any]]
    refers to. *)
Definition deref_dict (l : loc) : M World (PyDict.t value) :=
  λ w, match w_heap w !! l with
       | Some (ODict d) => (Ok d, w)
       | _ => (Raise (Exn OutOfModel "not a reference to a dictionary"), w)
       end.

Definition store_dict (l : loc) (d : PyDict.t value) : M World unit :=
  modify (set_heap (λ h, <[l := ODict d]> h)).

(** [datetime.now().isoformat()] *)
Definition now_isoformat : M World string :=
  λ w, (Ok (w_now w (w_ticks w)),
        mkWorld (w_heap w) (w_fs w) (w_now w) (S (w_ticks w)) (w_remote w)
                (w_calls w) (w_environ w)).

(** [os.getenv(var)] *)
Definition getenv (var : string) : M World (option string) :=
  λ w, (Ok (w_environ w var), w).

(** [client.chat.completions.create(...)] *)
Definition chat_completions_create (req : request) : M World (list string) :=
  λ w, let w' := mkWorld (w_heap w) (w_fs w) (w_now w) (w_ticks w) (w_remote w)
                         (w_calls w ++ [req]) (w_environ w) in
       match w_remote w (w_calls w) req with
       | Completion choices => (Ok choices, w')
       | Failure e => (Raise e, w')
       end.

(** [response.choices[0]] *)
Definition first_choice {S} (choices : list string) : M S string :=
  match choices with
  | c :: _ => ret c
  | [] => raise (Exn IndexError "list index out of range")
  end.

(** Truth value of an [Optional[str]]: [None] and the empty string are
    false.  Returns the string when it is true. *)
Definition truthy_str (o : option string) : option string :=
  match o with
  | Some s => if decide (s = EmptyString) then None else Some s
  | None => None
  end.

(** Truth value of an [Optional[Dict]]: [None] and the empty dictionary
    are false. *)
Definition truthy_dict {V} (o : option (PyDict.t V)) : bool :=
  match o with
  | Some (_ :: _) => true
  | _ => false
  end.

(** ** The dataclasses *)

Module Agent.

Record t := mk {
  name : string;
  instructions : string;
  functions : list nat;      (* function objects, by identity *)
  model : string;
  temperature : float;
  max_tokens : Z
}.

(** The generated [__init__] followed by [__post_init__]; [None] for
    [model], [temperature] or [max_tokens] stands for an argument that is
    not passed. *)
Definition init (name instructions : string) (functions : option (list nat))
    (model : option string) (temperature : option float)
    (max_tokens : option Z) : t :=
  {| name := name;
     instructions := instructions;
     functions := match functions with None => [] | Some fs => fs end;
     model := default "gpt-4" model;
     temperature := default 0.7%float temperature;
     max_tokens := default 1000 max_tokens |}.

Definition fields : list string :=
  ["name"; "instructions"; "functions"; "model"; "temperature"; "max_tokens"].

(** [dataclasses.asdict(agent)] *)
Definition asdict (a : t) : pyobj :=
  PDict [("name", PVal (VStr (name a)));
         ("instructions", PVal (VStr (instructions a)));
         ("functions", PList ((λ f, PVal (VCallable f)) <$> functions a));
         ("model", PVal (VStr (model a)));
         ("temperature", PVal (VFloat (temperature a)));
         ("max_tokens", PVal (VInt (max_tokens a)))].

(** [Agent] called with the keyword arguments of a parsed [data]. *)
Definition from_kwargs (data : json) : outcome t :=
  match data with
  | JObj members =>
      let kw := PyDict.of_pairs members in
      match filter (λ k, k ∉ fields) (PyDict.keys kw) with
      | k :: _ =>
          Raise (Exn TypeError ("got an unexpected keyword argument '" +:+ k +:+ "'"))
      | [] =>
          match PyDict.get "name" kw, PyDict.get "instructions" kw with
          | Some (JStr n), Some (JStr i) =>
              match PyDict.get "functions" kw, PyDict.get "model" kw,
                    PyDict.get "temperature" kw, PyDict.get "max_tokens" kw with
              | (None | Some JNull | Some (JList [])) as fs,
                (None | Some (JStr _)) as m,
                (None | Some (JFloat _)) as t,
                (None | Some (JInt _)) as mt =>
                  Ok (init n i
                        (match fs with Some (JList _) => Some [] | _ => None end)
                        (match m with Some (JStr s) => Some s | _ => None end)
                        (match t with Some (JFloat f) => Some f | _ => None end)
                        (match mt with Some (JInt z) => Some z | _ => None end))
              | _, _, _, _ =>
                  Raise (Exn OutOfModel "field value outside its annotated type")
              end
          | Some _, Some _ =>
              Raise (Exn OutOfModel "field value outside its annotated type")
          | _, _ =>
              Raise (Exn TypeError "missing required positional arguments")
          end
      end
  | _ => Raise (Exn TypeError "argument after ** must be a mapping")
  end.

End Agent.

Module Message.

Record t := mk {
  role : string;             (* 'system', 'user', 'assistant', 'function' *)
  content : string;
  name : option string;
  function_call : option loc;
  timestamp : string
}.

(** The generated [__init__] followed by [__post_init__]. *)
Definition init (role content : string) (name : option string)
    (function_call : option loc) (timestamp : option string) : M World t :=
  match timestamp with
  | Some ts => ret (mk role content name function_call ts)
  | None => ts <- now_isoformat ;; ret (mk role content name function_call ts)
  end.

Definition fields : list string :=
  ["role"; "content"; "name"; "function_call"; "timestamp"].

(** [dataclasses.asdict(msg)] *)
Definition asdict (h : heap) (m : t) : outcome pyobj :=
  match match function_call m with
        | None => Ok (PVal VNone)
        | Some l => deepcopy (S (List.length h)) h (VRef l)
        end with
  | Raise e => Raise e
  | Ok fc =>
      Ok (PDict [("role", PVal (VStr (role m)));
                 ("content", PVal (VStr (content m)));
                 ("name", PVal (match name m with
                                | None => VNone
                                | Some n => VStr n
                                end));
                 ("function_call", fc);
                 ("timestamp", PVal (VStr (timestamp m)))])
  end.

(** [Message] called with the keyword arguments of a parsed [data]. *)
Definition from_kwargs (data : json) : M World t :=
  match data with
  | JObj members =>
      let kw := PyDict.of_pairs members in
      match filter (λ k, k ∉ fields) (PyDict.keys kw) with
      | k :: _ =>
          raise (Exn TypeError ("got an unexpected keyword argument '" +:+ k +:+ "'"))
      | [] =>
          match PyDict.get "role" kw, PyDict.get "content" kw with
          | Some (JStr r), Some (JStr c) =>
              match PyDict.get "name" kw, PyDict.get "function_call" kw,
                    PyDict.get "timestamp" kw with
              | (None | Some JNull | Some (JStr _)) as n,
                (None | Some JNull | Some (JObj _)) as fc,
                (None | Some JNull | Some (JStr _)) as ts =>
                  fc' <- match fc with
                         | Some (JObj ms) =>
                             λ w, match decode (JObj ms) (w_heap w) with
                                  | (VRef l, h') => (Ok (Some l), set_heap (λ _, h') w)
                                  | (_, h') => (Ok None, set_heap (λ _, h') w)
                                  end
                         | _ => ret None
                         end ;;
                  init r c
                    (match n with Some (JStr s) => Some s | _ => None end)
                    fc'
                    (match ts with Some (JStr s) => Some s | _ => None end)
              | _, _, _ =>
                  raise (Exn OutOfModel "field value outside its annotated type")
              end
          | Some _, Some _ =>
              raise (Exn OutOfModel "field value outside its annotated type")
          | _, _ =>
              raise (Exn TypeError "missing required positional arguments")
          end
      end
  | _ => raise (Exn TypeError "argument after ** must be a mapping")
  end.

End Message.

Module SwarmResult.

Record t := mk {
  messages : list Message.t;
  agent : Agent.t;
  context_variables : loc
}.

End SwarmResult.

(** The dictionary [get_stats] returns, by its keys. *)
Module Stats.

Record t := mk {
  total_agents : nat;
  agent_names : list string;
  conversation_length : nat;
  context_variables : nat;
  last_activity : option string
}.

End Stats.

(** ** The Swarm class *)

Module Swarm.

Record t := mk {
  client : string;                         (* the key held by the client *)
  agents : PyDict.t Agent.t;
  conversation_history : list Message.t;
  context_variables : loc
}.

(** The object a method runs on, and the world it runs in. *)
Record state := mkState { self : t; world : World }.

Definition in_world {A} (m : M World A) : M state A :=
  λ s, let '(o, w) := m (world s) in (o, mkState (self s) w).

Definition get_self : M state t := λ s, (Ok (self s), s).

Definition set_agents (d : PyDict.t Agent.t) : M state unit :=
  modify (λ s, mkState (mk (client (self s)) d (conversation_history (self s))
                           (context_variables (self s))) (world s)).

Definition set_history (h : list Message.t) : M state unit :=
  modify (λ s, mkState (mk (client (self s)) (agents (self s)) h
                           (context_variables (self s))) (world s)).

Definition set_context_variables (l : loc) : M state unit :=
  modify (λ s, mkState (mk (client (self s)) (agents (self s))
                           (conversation_history (self s)) l) (world s)).

(** [Swarm(api_key)] *)
Definition init (api_key : option string) : M World t :=
  key <- match truthy_str api_key with
         | Some k => ret k
         | None =>
             (* Try to get from environment *)
             api_key <- getenv "OPENAI_API_KEY" ;;
             match truthy_str api_key with
             | None =>
                 raise (Exn ValueError "OpenAI API key required. Set OPENAI_API_KEY environment variable or pass api_key parameter.")
             | Some k => ret k
             end
         end ;;
  ctx <- alloc (ODict PyDict.empty) ;;
  ret (mk key PyDict.empty [] ctx).

Definition add_agent (agent : Agent.t) : M state unit :=
  s <- get_self ;;
  set_agents (PyDict.set (Agent.name agent) agent (agents s)).

Definition remove_agent (agent_name : string) : M state bool :=
  s <- get_self ;;
  if PyDict.mem agent_name (agents s)
  then set_agents (PyDict.del agent_name (agents s)) ;;; ret true
  else ret false.

Definition get_agent (agent_name : string) : M state (option Agent.t) :=
  s <- get_self ;; ret (PyDict.get agent_name (agents s)).

Definition list_agents : M state (list string) :=
  s <- get_self ;; ret (PyDict.keys (agents s)).

Definition set_context (key : string) (v : value) : M state unit :=
  s <- get_self ;;
  d <- in_world (deref_dict (context_variables s)) ;;
  in_world (store_dict (context_variables s) (PyDict.set key v d)).

Definition get_context (key : string) (default : value) : M state value :=
  s <- get_self ;;
  d <- in_world (deref_dict (context_variables s)) ;;
  ret (match PyDict.get key d with Some v => v | None => default end).

Definition clear_history : M state unit := set_history [].

Definition add_message (message : Message.t) : M state unit :=
  s <- get_self ;; set_history (conversation_history s ++ [message]).

(** [self.context_variables.update(other)] *)
Definition update_context (other : PyDict.t value) : M state unit :=
  s <- get_self ;;
  d <- in_world (deref_dict (context_variables s)) ;;
  in_world (store_dict (context_variables s) (PyDict.update d other)).

(** [self.context_variables.copy()]: a new dictionary with the same
    entries. *)
Definition copy_context : M state loc :=
  s <- get_self ;;
  d <- in_world (deref_dict (context_variables s)) ;;
  in_world (alloc (ODict d)).

(** [self.conversation_history[-max_turns:]], the window of the history
    that goes into the outbound request. *)
Definition snapshot (max_turns : Z) (history : list Message.t) : list Message.t :=
  slice_from (- max_turns) history.

(** [{"role": msg.role, "content": msg.content}] *)
Definition turn_of (msg : Message.t) : turn :=
  Turn (Message.role msg) (Message.content msg).

(** The list [api_messages] that [run] prepares: the system turn with
    the agent's instructions, then the window of the history. *)
Definition api_messages (agent : Agent.t) (max_turns : Z)
    (history : list Message.t) : list turn :=
  Turn "system" (Agent.instructions agent)
  :: (turn_of <$> snapshot max_turns history).

Definition run (agent_name : string) (messages : list Message.t)
    (context_variables : option (PyDict.t value)) (max_turns : Z)
  : M state SwarmResult.t :=
  s <- get_self ;;
  match PyDict.get agent_name (agents s) with
  | None => raise (Exn ValueError ("Agent '" +:+ agent_name +:+ "' not found"))
  | Some agent =>
      (* Update context variables if provided *)
      (if truthy_dict context_variables
       then update_context (default PyDict.empty context_variables)
       else ret tt) ;;;
      (* Add messages to history *)
      for_each add_message messages ;;;
      (* Prepare messages for OpenAI API *)
      s <- get_self ;;
      try_except
        (response <- in_world (chat_completions_create
                                 (Request (Agent.model agent)
                                    (api_messages agent max_turns
                                       (conversation_history s))
                                    (Agent.temperature agent)
                                    (Agent.max_tokens agent))) ;;
         assistant_content <- first_choice response ;;
         response_msg <- in_world (Message.init "assistant" assistant_content
                                     (Some (Agent.name agent)) None None) ;;
         add_message response_msg ;;;
         ctx <- copy_context ;;
         ret (SwarmResult.mk [response_msg] agent ctx))
        (λ e,
         error_msg <- in_world (Message.init "assistant" ("Error: " +:+ str e)
                                  (Some (Agent.name agent)) None None) ;;
         ctx <- copy_context ;;
         ret (SwarmResult.mk [error_msg] agent ctx))
  end.

Definition handoff (from_agent to_agent message : string)
    (context : option (PyDict.t value)) : M state SwarmResult.t :=
  s <- get_self ;;
  if negb (PyDict.mem from_agent (agents s))
  then raise (Exn ValueError ("Source agent '" +:+ from_agent +:+ "' not found"))
  else if negb (PyDict.mem to_agent (agents s))
  then raise (Exn ValueError ("Target agent '" +:+ to_agent +:+ "' not found"))
  else
    handoff_msg <- in_world (Message.init "user"
                               ("[Handoff from " +:+ from_agent +:+ "]: " +:+ message)
                               None None None) ;;
    run to_agent [handoff_msg] context 10.

(** The loop of [multi_agent_run], with its two variables. *)
Fixpoint multi_agent_loop (agent_sequence : list string)
    (current_message : string) (results : list SwarmResult.t)
  : M state (list SwarmResult.t) :=
  match agent_sequence with
  | [] => ret results
  | agent_name :: rest =>
      msg <- in_world (Message.init "user" current_message None None None) ;;
      result <- run agent_name [msg] None 10 ;;
      let results := results ++ [result] in
      let current_message :=
        match last (SwarmResult.messages result) with
        | Some m => Message.content m
        | None => current_message
        end in
      multi_agent_loop rest current_message results
  end.

Definition multi_agent_run (agent_sequence : list string)
    (initial_message : string) (context_variables : option (PyDict.t value))
  : M state (list SwarmResult.t) :=
  (if truthy_dict context_variables
   then update_context (default PyDict.empty context_variables)
   else ret tt) ;;;
  multi_agent_loop agent_sequence initial_message [].

(** [json.dump(state, f, indent=2)] into the file just opened for
    writing: the text reaches the file piece by piece, so a failure
    leaves a truncated document behind. *)
Definition json_dump (o : pyobj) (filename : string) : M World unit :=
  λ w, match encode (w_heap w) o with
       | Ok doc => (Ok tt, set_fs (λ fs, <[filename := FDocument doc]> fs) w)
       | Raise e => (Raise e, set_fs (λ fs, <[filename := FMalformed]> fs) w)
       end.

Definition save_state (filename : string) : M state unit :=
  s <- get_self ;;
  let agents_dict := PDict ((λ kv, (kv.1, Agent.asdict kv.2)) <$> agents s) in
  history <- in_world (λ w, (traverse (Message.asdict (w_heap w))
                               (conversation_history s), w)) ;;
  ts <- in_world now_isoformat ;;
  let state := PDict [("agents", agents_dict);
                      ("conversation_history", PList history);
                      ("context_variables", PVal (VRef (context_variables s)));
                      ("timestamp", PVal (VStr ts))] in
  in_world (modify (set_fs (λ fs, <[filename := FMalformed]> fs))) ;;;
  in_world (json_dump state filename).

(** [json.load(f)] on the file opened for reading. *)
Definition json_load (filename : string) : M World json :=
  λ w, match w_fs w !! filename with
       | None => (Raise (Exn FileNotFoundError filename), w)
       | Some FMalformed => (Raise (Exn JSONDecodeError "Expecting value"), w)
       | Some (FDocument doc) => (Ok doc, w)
       end.

Definition load_state (filename : string) : M state unit :=
  state <- in_world (json_load filename) ;;
  (* Restore agents *)
  set_agents PyDict.empty ;;;
  agents_data <- lift_outcome (match subscript state "agents" with
                               | Ok a => items a
                               | Raise e => Raise e
                               end) ;;
  for_each (λ kv, agent <- lift_outcome (Agent.from_kwargs kv.2) ;;
                  s <- get_self ;;
                  set_agents (PyDict.set kv.1 agent (agents s)))
           agents_data ;;;
  (* Restore conversation history *)
  set_history [] ;;;
  history_data <- lift_outcome (match subscript state "conversation_history" with
                                | Ok a => iterate a
                                | Raise e => Raise e
                                end) ;;
  for_each (λ msg_data, msg <- in_world (Message.from_kwargs msg_data) ;;
                        add_message msg)
           history_data ;;;
  (* Restore context *)
  ctx <- lift_outcome (subscript state "context_variables") ;;
  match ctx with
  | JObj _ =>
      v <- in_world (λ w, let '(v, h') := decode ctx (w_heap w) in
                          (Ok v, set_heap (λ _, h') w)) ;;
      match v with
      | VRef l => set_context_variables l
      | _ => raise (Exn OutOfModel "not a reference to a dictionary")
      end
  | _ => raise (Exn OutOfModel "field value outside its annotated type")
  end.

Definition get_stats : M state Stats.t :=
  s <- get_self ;;
  d <- in_world (deref_dict (context_variables s)) ;;
  ret (Stats.mk (List.length (agents s))
                (PyDict.keys (agents s))
                (List.length (conversation_history s))
                (List.length d)
                (match last (conversation_history s) with
                 | Some m => Some (Message.timestamp m)
                 | None => None
                 end)).

End Swarm.

(** ** Names of the specification *)

(** The error taxonomy of the specification, as the program raises it. *)
Definition ConfigurationError : exn :=
  Exn ValueError "OpenAI API key required. Set OPENAI_API_KEY environment variable or pass api_key parameter.".

Definition AgentNotFound (agent_name : string) : exn :=
  Exn ValueError ("Agent '" +:+ agent_name +:+ "' not found").

(** The context variable of the swarm designates a dictionary of the heap
    (it does in every state the program builds). *)
Definition ctx_ok (s : Swarm.state) : bool :=
  match w_heap (Swarm.world s) !! Swarm.context_variables (Swarm.self s) with
  | Some (ODict _) => true
  | _ => false
  end.

(** The entries of the context dictionary. *)
Definition ctx_entries (s : Swarm.state) : PyDict.t value :=
  match w_heap (Swarm.world s) !! Swarm.context_variables (Swarm.self s) with
  | Some (ODict d) => d
  | _ => []
  end.

Definition registered (agent_name : string) (s : Swarm.state) : bool :=
  PyDict.mem agent_name (Swarm.agents (Swarm.self s)).

(** The same state in a world whose remote service behaves as [remote]. *)
Definition with_remote (remote : list request → request → reply)
    (s : Swarm.state) : Swarm.state :=
  let w := Swarm.world s in
  Swarm.mkState (Swarm.self s)
    (mkWorld (w_heap w) (w_fs w) (w_now w) (w_ticks w) remote (w_calls w)
             (w_environ w)).

(** [lst.append(x)], done by a caller on a list it reached through a
    context value. *)
Definition list_append (l : loc) (x : value) : M World unit :=
  λ w, match w_heap w !! l with
       | Some (OList items) =>
           (Ok tt, set_heap (λ h, <[l := OList (items ++ [x])]> h) w)
       | _ => (Raise (Exn AttributeError "object has no attribute 'append'"), w)
       end.

(** [result.context_variables[key]] read by a caller, with the contents of
    the container it designates, if any. *)
Definition result_lookup (r : SwarmResult.t) (key : string) (w : World)
  : option (value * option obj) :=
  match w_heap w !! SwarmResult.context_variables r with
  | Some (ODict d) =>
      match PyDict.get key d with
      | Some (VRef l) => Some (VRef l, w_heap w !! l)
      | Some v => Some (v, None)
      | None => None
      end
  | _ => None
  end.

(** The last [k] elements of a list, in their order. *)
Definition last_n {A} (k : nat) (l : list A) : list A :=
  drop (List.length l - k) l.

(** The agent added last under a name in a sequence of additions. *)
Definition last_added (agent_name : string) (added : list Agent.t)
  : option Agent.t :=
  last (filter (λ a, Agent.name a = agent_name) added).

(** The request [run] sends for an agent over a stored history. *)
Definition outbound (agent : Agent.t) (max_turns : Z)
    (history : list Message.t) : request :=
  Request (Agent.model agent) (Swarm.api_messages agent max_turns history)
          (Agent.temperature agent) (Agent.max_tokens agent).

(** The state [run] leaves behind for a registered agent: the context
    merged, the history extended by [appended], one clock reading, one
    request logged and the copy of the context allocated. *)
Definition after_run (s : Swarm.state) (cv : option (PyDict.t value))
    (appended : list Message.t) (req : request) : Swarm.state :=
  let me := Swarm.self s in
  let w := Swarm.world s in
  let d := PyDict.update (ctx_entries s) (default PyDict.empty cv) in
  Swarm.mkState
    (Swarm.mk (Swarm.client me) (Swarm.agents me)
              (Swarm.conversation_history me ++ appended)
              (Swarm.context_variables me))
    (mkWorld (<[Swarm.context_variables me := ODict d]> (w_heap w) ++ [ODict d])
             (w_fs w) (w_now w) (S (w_ticks w)) (w_remote w)
             (w_calls w ++ [req]) (w_environ w)).

(** The assistant message [run] builds at the next clock reading. *)
Definition assistant_message (s : Swarm.state) (agent : Agent.t)
    (content : string) : Message.t :=
  Message.mk "assistant" content (Some (Agent.name agent)) None
             (w_now (Swarm.world s) (w_ticks (Swarm.world s))).

(** The exception [json.dump] raises on a function object. *)
Definition not_serializable : exn :=
  Exn TypeError "Object of type function is not JSON serializable".

(** The text a result carries: the content of its last message. *)
Definition output (r : SwarmResult.t) : string :=
  match last (SwarmResult.messages r) with
  | Some m => Message.content m
  | None => EmptyString
  end.

(** A sequential run seen from outside: the agents named in [names] are
    called one after the other, each through one request whose system
    turn holds the instructions of the agent registered under the name
    and whose last turn is a user turn with the text [input]; the result
    holds that agent and one message, and the content of that message is
    the input of the next agent. *)
Fixpoint chain (agents : PyDict.t Agent.t) (input : string)
    (names : list string) (results : list SwarmResult.t)
    (requests : list request) : Prop :=
  match names, results, requests with
  | [], [], [] => True
  | n :: names', r :: results', q :: requests' =>
      PyDict.get n agents = Some (SwarmResult.agent r) ∧
      head (req_messages q)
        = Some (Turn "system" (Agent.instructions (SwarmResult.agent r))) ∧
      last (req_messages q) = Some (Turn "user" input) ∧
      ∃ m, SwarmResult.messages r = [m] ∧
           chain agents (Message.content m) names' results' requests'
  | _, _, _ => False
  end.

(** ** The saved document *)



(** The JSON object of an agent without callables. *)
Definition agent_json (a : Agent.t) : json :=
  JObj [("name", JStr (Agent.name a));
        ("instructions", JStr (Agent.instructions a));
        ("functions", JList []);
        ("model", JStr (Agent.model a));
        ("temperature", JFloat (Agent.temperature a));
        ("max_tokens", JInt (Agent.max_tokens a))].




(** * Sample states *)

Module Sample.

Definition agent_A : Agent.t := Agent.init "A" "You are A." None None None None.
Definition agent_B : Agent.t := Agent.init "B" "You are B." None None None None.

(** A later definition of agent A. *)
Definition agent_A2 : Agent.t :=
  Agent.init "A" "You are the new A." None (Some "gpt-4o") None (Some 50).

(** An agent with one callable capability. *)
Definition agent_tool : Agent.t :=
  Agent.init "tool" "You call tools." (Some [7%nat]) None None None.

(** A remote service that echoes the last turn of the request. *)
Definition echo : list request → request → reply :=
  λ _ req, match last (req_messages req) with
           | Some t => Completion [turn_content t]
           | None => Completion []
           end.

(** A remote service that is down. *)
Definition failing : list request → request → reply :=
  λ _ _, Failure (Exn OpenAIError "boom").

(** A remote service that always answers with the same text. *)
Definition saying (text : string) : list request → request → reply :=
  λ _ _, Completion [text].

Fixpoint zeros (n : nat) : string :=
  match n with
  | O => EmptyString
  | S n' => "0" +:+ zeros n'
  end.

(** A clock whose readings all differ. *)
Definition clock (n : nat) : string :=
  "2025-01-01T00:00:00." +:+ zeros n +:+ "1".

Definition no_environ : string → option string := λ _, None.

(** A world with nothing in it. *)
Definition bare (remote : list request → request → reply) : World :=
  mkWorld [] ∅ clock 0 remote [] no_environ.

(** The message a caller builds with [Message(role, content)]. *)
Definition message (role content : string) (at_tick : nat) : Message.t :=
  Message.mk role content None None (clock at_tick).

(** A swarm just constructed: nothing registered, nothing said. *)
Definition fresh : Swarm.state :=
  Swarm.mkState (Swarm.mk "sk-test" PyDict.empty [] 0)
    (mkWorld [ODict PyDict.empty] ∅ clock 0 echo [] no_environ).

Definition swarm_AB : Swarm.t :=
  Swarm.mk "sk-test" [("A", agent_A); ("B", agent_B)] [] 0.

(** A swarm with agents A and B, an empty history and an empty context. *)
Definition state (remote : list request → request → reply) : Swarm.state :=
  Swarm.mkState swarm_AB
    (mkWorld [ODict PyDict.empty] ∅ clock 0 remote [] no_environ).

Definition five : list Message.t :=
  [message "user" "one" 0; message "assistant" "two" 1;
   message "user" "three" 2; message "assistant" "four" 3;
   message "user" "five" 4].

(** The same swarm with five messages in its history. *)
Definition state_five (remote : list request → request → reply) : Swarm.state :=
  Swarm.mkState (Swarm.mk "sk-test" [("A", agent_A); ("B", agent_B)] five 0)
    (mkWorld [ODict PyDict.empty] ∅ clock 5 remote [] no_environ).

(** A swarm whose context holds a list under the key [todo]. *)
Definition state_nested (remote : list request → request → reply) : Swarm.state :=
  Swarm.mkState (Swarm.mk "sk-test" [("A", agent_A)] [] 0)
    (mkWorld [ODict [("todo", VRef 1); ("n", VInt 1)]; OList [VStr "a"]]
             ∅ clock 0 remote [] no_environ).

(** A swarm with one agent that has a callable. *)
Definition state_tool (remote : list request → request → reply) : Swarm.state :=
  Swarm.mkState (Swarm.mk "sk-test" [("tool", agent_tool)] [] 0)
    (mkWorld [ODict PyDict.empty] ∅ clock 0 remote [] no_environ).

(** The swarm with a callable, where an earlier save left a document. *)
Definition state_tool_saved (remote : list request → request → reply)
  : Swarm.state :=
  Swarm.mkState (Swarm.mk "sk-test" [("tool", agent_tool)] [] 0)
    (mkWorld [ODict PyDict.empty]
             {["swarm_state.json" := FDocument (JObj [("agents", JObj [])])]}
             clock 0 remote [] no_environ).

(** A swarm about to load a document whose second agent has a field
    [role] that [Agent] does not know. *)
Definition state_extra_field : Swarm.state :=
  Swarm.mkState (Swarm.mk "sk-test" [("A", agent_A)] [message "user" "old" 0] 0)
    (mkWorld [ODict PyDict.empty]
             {["swarm_state.json" :=
                 FDocument
                   (JObj [("agents",
                           JObj [("B", agent_json agent_B);
                                 ("C", JObj [("name", JStr "C");
                                             ("instructions", JStr "c");
                                             ("role", JStr "helper")])])])]}
             clock 1 echo [] no_environ).


(** A swarm worth saving: two agents without callables, two messages and
    two context variables. *)
Definition state_saved : Swarm.state :=
  Swarm.mkState
    (Swarm.mk "sk-test" [("A", agent_A2); ("B", agent_B)]
              [message "user" "one" 0;
               Message.mk "assistant" "two" (Some "A") None (clock 1)]
              0)
    (mkWorld [ODict [("analysis_complete", VBool true);
                     ("next_step", VStr "security_review")]]
             ∅ clock 2 echo [] no_environ).

End Sample.

(** * Properties *)

Lemma for_each_add_message (msgs : list Message.t) (s : Swarm.state) :
  for_each Swarm.add_message msgs s =
  (Ok tt,
   Swarm.mkState
     (Swarm.mk (Swarm.client (Swarm.self s)) (Swarm.agents (Swarm.self s))
               (Swarm.conversation_history (Swarm.self s) ++ msgs)
               (Swarm.context_variables (Swarm.self s)))
     (Swarm.world s)).
Proof.
  revert s. induction msgs as [|m msgs IH]; intros [[c a h x] w]; simpl.
  - by rewrite app_nil_r.
  - unfold bind at 1. simpl. rewrite IH. simpl. by rewrite <- app_assoc.
Qed.

Lemma update_nil {V} (d : PyDict.t V) : PyDict.update d [] = d.
Proof. reflexivity. Qed.

Lemma truthy_dict_false_update {V} (cv : option (PyDict.t V)) (d : PyDict.t V) :
  truthy_dict cv = false → PyDict.update d (default PyDict.empty cv) = d.
Proof. destruct cv as [[|? ?]|]; simpl; done. Qed.

Ltac py_eval :=
  cbv beta iota zeta delta
    [bind ret raise get modify lift_outcome try_except first_choice
     Swarm.in_world Swarm.get_self Swarm.set_agents Swarm.set_history
     Swarm.set_context_variables Swarm.add_message Swarm.copy_context
     Swarm.update_context Swarm.set_context Swarm.get_context
     deref_dict store_dict alloc now_isoformat getenv set_heap set_fs
     Message.init];
  cbn [Swarm.self Swarm.world Swarm.client Swarm.agents
       Swarm.conversation_history Swarm.context_variables
       w_heap w_fs w_now w_ticks w_remote w_calls w_environ fst snd].

Lemma merge_context (s : Swarm.state) (cv : option (PyDict.t value)) :
  ctx_ok s = true →
  (if truthy_dict cv
   then Swarm.update_context (default PyDict.empty cv)
   else ret tt) s =
  (Ok tt,
   Swarm.mkState (Swarm.self s)
     (set_heap (λ h, <[Swarm.context_variables (Swarm.self s) :=
                         ODict (PyDict.update (ctx_entries s)
                                  (default PyDict.empty cv))]> h)
               (Swarm.world s))).
Proof.
  destruct s as [[c a h x] w]. unfold ctx_ok, ctx_entries. simpl. intros Hctx.
  destruct (w_heap w !! x) as [[|d]|] eqn:Hx; try done.
  destruct (truthy_dict cv) eqn:Hcv.
  - unfold Swarm.update_context, Swarm.in_world, deref_dict, store_dict, modify,
      bind, Swarm.get_self. simpl. by rewrite Hx.
  - rewrite truthy_dict_false_update by done. unfold ret, set_heap.
    rewrite list_insert_id by done. by destruct w.
Qed.

Lemma copy_context_dict (s : Swarm.state) (d : PyDict.t value) :
  w_heap (Swarm.world s) !! Swarm.context_variables (Swarm.self s)
    = Some (ODict d) →
  Swarm.copy_context s =
  (Ok (List.length (w_heap (Swarm.world s))),
   Swarm.mkState (Swarm.self s) (set_heap (λ h, h ++ [ODict d]) (Swarm.world s))).
Proof.
  intros Hx. unfold Swarm.copy_context, Swarm.in_world, deref_dict, alloc, bind,
    Swarm.get_self. simpl. by rewrite Hx.
Qed.

Lemma run_registered (s : Swarm.state) (agent_name : string) (agent : Agent.t)
    (messages : list Message.t) (cv : option (PyDict.t value)) (max_turns : Z) :
  PyDict.get agent_name (Swarm.agents (Swarm.self s)) = Some agent →
  ctx_ok s = true →
  let w := Swarm.world s in
  let hist := Swarm.conversation_history (Swarm.self s) ++ messages in
  let req := outbound agent max_turns hist in
  let fresh := List.length (w_heap w) in
  Swarm.run agent_name messages cv max_turns s =
  match w_remote w (w_calls w) req with
  | Completion (c :: _) =>
      let m := assistant_message s agent c in
      (Ok (SwarmResult.mk [m] agent fresh), after_run s cv (messages ++ [m]) req)
  | Completion [] =>
      let m := assistant_message s agent "Error: list index out of range" in
      (Ok (SwarmResult.mk [m] agent fresh), after_run s cv messages req)
  | Failure e =>
      let m := assistant_message s agent ("Error: " +:+ str e) in
      (Ok (SwarmResult.mk [m] agent fresh), after_run s cv messages req)
  end.
Proof.
  intros Hag Hctx. simpl.
  unfold Swarm.run. unfold bind at 1. simpl. rewrite Hag.
  unfold bind at 1. rewrite merge_context by done.
  unfold bind at 1. rewrite for_each_add_message. simpl.
  unfold bind at 1. simpl.
  destruct s as [[c a h x] w]. unfold ctx_ok, ctx_entries in *. simpl in *.
  destruct (w_heap w !! x) as [[|d]|] eqn:Hx; try done.
  set (d' := PyDict.update d (default PyDict.empty cv)).
  assert (Hlen : (x < List.length (w_heap w))%nat) by (by eapply lookup_lt_Some).
  unfold try_except, outbound, assistant_message, after_run, ctx_entries. simpl.
  unfold bind at 1. unfold Swarm.in_world at 1, chat_completions_create. simpl.
  rewrite Hx. fold d'.
  destruct (w_remote w (w_calls w) _) as [[|ch chs]|e]; py_eval;
    rewrite list_lookup_insert_eq by done; py_eval;
    rewrite ?length_insert, ?app_assoc; reflexivity.
Qed.

Lemma registered_get (agent_name : string) (s : Swarm.state) :
  registered agent_name s = true →
  ∃ agent, PyDict.get agent_name (Swarm.agents (Swarm.self s)) = Some agent.
Proof.
  unfold registered, PyDict.mem.
  destruct (PyDict.get _ _) as [agent|]; [eauto | done].
Qed.

Lemma not_registered_get (agent_name : string) (s : Swarm.state) :
  registered agent_name s = false →
  PyDict.get agent_name (Swarm.agents (Swarm.self s)) = None.
Proof.
  unfold registered, PyDict.mem. by destruct (PyDict.get _ _).
Qed.

(** ** Invocation of an unregistered agent *)

(** The guard at the head of [run]. *)
Lemma run_unregistered (s : Swarm.state) (agent_name : string)
    (messages : list Message.t) (cv : option (PyDict.t value)) (max_turns : Z) :
  PyDict.get agent_name (Swarm.agents (Swarm.self s)) = None →
  Swarm.run agent_name messages cv max_turns s
  = (Raise (Exn ValueError ("Agent '" +:+ agent_name +:+ "' not found")), s).
Proof.
  intros Hget. unfold Swarm.run, bind, Swarm.get_self, raise.
  by rewrite Hget.
Qed.

(** C3. Invoking [run] with a name that is absent from the registry
    raises the agent-not-found error ([ValueError] with the message
    [Agent '<name>' not found]) and returns the very state it was given:
    the conversation history, the context variables and everything else
    are as they were before the call, whatever the messages, the
    context overrides and the window size. *)
Theorem run_unregistered_agent_not_found (s : Swarm.state) (agent_name : string)
    (messages : list Message.t) (cv : option (PyDict.t value)) (max_turns : Z) :
  registered agent_name s = false →
  Swarm.run agent_name messages cv max_turns s
  = (Raise (AgentNotFound agent_name), s).
Proof.
  intros Hreg. apply not_registered_get in Hreg.
  unfold AgentNotFound. by apply run_unregistered.
Qed.

Lemma run_unregistered_agent_witness :
  registered "ghost" (Sample.state Sample.echo) = false ∧
  Swarm.run "ghost" [Sample.message "user" "hi" 0] (Some [("k", VInt 1)]) 10
            (Sample.state Sample.echo)
  = (Raise (AgentNotFound "ghost"), Sample.state Sample.echo).
Proof.
  split; [reflexivity|].
  apply run_unregistered_agent_not_found. reflexivity.
Defined.

(** ** Remote failures *)

(** C1 (as amended). For a registered agent, when the remote call raises
    an exception [e], [run] raises nothing: it returns a result whose
    single message is an assistant message with content [Error: <str e>]
    carrying the name of the invoked agent, together with that agent.
    The result type has no error indicator: a genuine completion whose
    text is [Error: <str e>] produces exactly the same result, so the
    substitute is told from a real answer by its content only. *)
Theorem run_remote_failure_degraded (s : Swarm.state) (agent_name : string)
    (agent : Agent.t) (messages : list Message.t)
    (cv : option (PyDict.t value)) (max_turns : Z) (e : exn) :
  PyDict.get agent_name (Swarm.agents (Swarm.self s)) = Some agent →
  ctx_ok s = true →
  let w := Swarm.world s in
  let req := outbound agent max_turns
               (Swarm.conversation_history (Swarm.self s) ++ messages) in
  w_remote w (w_calls w) req = Failure e →
  ∃ r s',
    Swarm.run agent_name messages cv max_turns s = (Ok r, s') ∧
    SwarmResult.messages r
      = [Message.mk "assistant" ("Error: " +:+ str e) (Some (Agent.name agent))
                    None (w_now w (w_ticks w))] ∧
    SwarmResult.agent r = agent ∧
    ∀ remote',
      remote' (w_calls w) req = Completion ["Error: " +:+ str e] →
      (Swarm.run agent_name messages cv max_turns (with_remote remote' s)).1
      = Ok r.
Proof.
  intros Hag Hctx w req Hfail.
  eexists _, _. split; [|split; [|split]].
  - rewrite (run_registered s agent_name agent) by done.
    fold w req. rewrite Hfail. reflexivity.
  - reflexivity.
  - reflexivity.
  - intros remote' Hok.
    rewrite (run_registered (with_remote remote' s) agent_name agent) by done.
    cbn [with_remote Swarm.world Swarm.self w_remote w_calls]. fold w req.
    rewrite Hok. reflexivity.
Qed.

Lemma run_remote_failure_witness :
  ∃ r s',
    Swarm.run "A" [Sample.message "user" "hi" 0] None 10
              (Sample.state Sample.failing) = (Ok r, s') ∧
    SwarmResult.messages r
      = [Message.mk "assistant" "Error: boom" (Some "A") None (Sample.clock 0)] ∧
    SwarmResult.agent r = Sample.agent_A ∧
    ∀ remote',
      remote' [] (outbound Sample.agent_A 10 [Sample.message "user" "hi" 0])
        = Completion ["Error: boom"] →
      (Swarm.run "A" [Sample.message "user" "hi" 0] None 10
                 (with_remote remote' (Sample.state Sample.failing))).1
      = Ok r.
Proof.
  apply (run_remote_failure_degraded (Sample.state Sample.failing) "A"
           Sample.agent_A [Sample.message "user" "hi" 0] None 10
           (Exn OpenAIError "boom")); reflexivity.
Defined.

(** C1 (as stated) fails: after a remote failure the history holds the
    input message only, the degraded message of the result is not in it,
    and the result equals the one a genuine completion with the same text
    produces, so nothing in it marks it as a substitute. *)
Lemma run_remote_failure_counterexample :
  ∃ r s',
    Swarm.run "A" [Sample.message "user" "hi" 0] None 10
              (Sample.state Sample.failing) = (Ok r, s') ∧
    Swarm.conversation_history (Swarm.self s') = [Sample.message "user" "hi" 0] ∧
    (∀ m, m ∈ SwarmResult.messages r →
          m ∉ Swarm.conversation_history (Swarm.self s')) ∧
    (Swarm.run "A" [Sample.message "user" "hi" 0] None 10
               (Sample.state (Sample.saying "Error: boom"))).1 = Ok r.
Proof.
  eexists _, _. split; [reflexivity|]. split; [reflexivity|]. split.
  - intros m Hm Hin. cbn in Hm, Hin.
    apply list_elem_of_singleton in Hm. apply list_elem_of_singleton in Hin.
    subst m. discriminate Hin.
  - reflexivity.
Qed.

(** ** The window of the history sent to the remote service *)

Lemma snapshot_positive (limit : Z) (history : list Message.t) :
  0 < limit →
  Swarm.snapshot limit history
  = last_n (Nat.min (Z.to_nat limit) (List.length history)) history.
Proof.
  intros Hpos. unfold Swarm.snapshot, slice_from, last_n.
  destruct (Z.ltb_spec (- limit) 0); [|lia]. f_equal. lia.
Qed.

Lemma last_n_length {A} (k : nat) (l : list A) :
  (k ≤ List.length l)%nat → List.length (last_n k l) = k.
Proof. intros Hk. unfold last_n. rewrite length_drop. lia. Qed.

Lemma snapshot_zero (history : list Message.t) :
  Swarm.snapshot 0 history = history.
Proof.
  unfold Swarm.snapshot, slice_from.
  destruct (Z.ltb_spec (- 0) 0); [lia|].
  by replace (Z.to_nat _) with O by lia.
Qed.

(** What [run] leaves in the world and in the history for a registered
    agent: it raises nothing, logs the request built from the history
    extended by the new messages, and only ever extends the history. *)
Lemma run_registered_effects (s : Swarm.state) (agent_name : string)
    (agent : Agent.t) (messages : list Message.t)
    (cv : option (PyDict.t value)) (max_turns : Z) :
  PyDict.get agent_name (Swarm.agents (Swarm.self s)) = Some agent →
  ctx_ok s = true →
  let hist := Swarm.conversation_history (Swarm.self s) ++ messages in
  ∃ r s',
    Swarm.run agent_name messages cv max_turns s = (Ok r, s') ∧
    w_calls (Swarm.world s')
      = w_calls (Swarm.world s) ++ [outbound agent max_turns hist] ∧
    hist `prefix_of` Swarm.conversation_history (Swarm.self s') ∧
    Swarm.agents (Swarm.self s') = Swarm.agents (Swarm.self s) ∧
    ctx_ok s' = true ∧
    SwarmResult.agent r = agent ∧
    ∃ m, SwarmResult.messages r = [m] ∧ Message.role m = "assistant".
Proof.
  intros Hag Hctx hist.
  rewrite (run_registered s agent_name agent) by done. fold hist.
  assert (Hok : ∀ appended req, ctx_ok (after_run s cv appended req) = true).
  { intros appended req. unfold ctx_ok, after_run in *.
    cbn [Swarm.self Swarm.world Swarm.context_variables w_heap].
    destruct (w_heap (Swarm.world s) !! _) as [[|d]|] eqn:Hx; try done.
    apply lookup_lt_Some in Hx.
    rewrite lookup_app_l by (by rewrite length_insert).
    by rewrite list_lookup_insert_eq. }
  destruct (w_remote _ _ _) as [[|c cs]|e]; eexists _, _;
    (split; [reflexivity|]); cbn [after_run Swarm.self Swarm.world w_calls
      Swarm.conversation_history Swarm.agents SwarmResult.agent
      SwarmResult.messages];
    repeat split; try apply Hok; eauto.
  rewrite app_assoc. by eexists.
Qed.

(** C6. For a positive limit, the window [run] takes for its outbound
    request is made of the last [min limit n] messages of the stored
    history (the history with the new messages appended, [n] its length)
    in their stored order; the request carries the system turn followed
    by exactly these messages, and the stored history is not shortened:
    after the call it still starts with all [n] messages. *)
Theorem run_window_is_trailing_part (s : Swarm.state) (agent_name : string)
    (agent : Agent.t) (messages : list Message.t)
    (cv : option (PyDict.t value)) (limit : Z) :
  PyDict.get agent_name (Swarm.agents (Swarm.self s)) = Some agent →
  ctx_ok s = true →
  0 < limit →
  let hist := Swarm.conversation_history (Swarm.self s) ++ messages in
  let k := Nat.min (Z.to_nat limit) (List.length hist) in
  Swarm.snapshot limit hist = last_n k hist ∧
  List.length (Swarm.snapshot limit hist) = k ∧
  ∃ r s' req,
    Swarm.run agent_name messages cv limit s = (Ok r, s') ∧
    last (w_calls (Swarm.world s')) = Some req ∧
    req_messages req
      = Turn "system" (Agent.instructions agent)
        :: (Swarm.turn_of <$> last_n k hist) ∧
    hist `prefix_of` Swarm.conversation_history (Swarm.self s').
Proof.
  intros Hag Hctx Hpos hist k.
  assert (Hsnap : Swarm.snapshot limit hist = last_n k hist)
    by (by apply snapshot_positive).
  split; [done|]. split.
  { rewrite Hsnap. apply last_n_length. lia. }
  destruct (run_registered_effects s agent_name agent messages cv limit Hag Hctx)
    as (r & s' & Hrun & Hcalls & Hpre & _).
  exists r, s', (outbound agent limit hist). split; [done|]. split.
  { rewrite Hcalls. apply last_snoc. }
  split; [|done].
  unfold outbound, Swarm.api_messages. cbn [req_messages]. by rewrite Hsnap.
Qed.

Lemma run_window_witness :
  Swarm.snapshot 2 Sample.five
    = [Sample.message "assistant" "four" 3; Sample.message "user" "five" 4] ∧
  ∃ r s' req,
    Swarm.run "A" [] None 2 (Sample.state_five Sample.echo) = (Ok r, s') ∧
    last (w_calls (Swarm.world s')) = Some req ∧
    req_messages req
      = [Turn "system" "You are A."; Turn "assistant" "four"; Turn "user" "five"] ∧
    Sample.five `prefix_of` Swarm.conversation_history (Swarm.self s').
Proof.
  pose proof (run_window_is_trailing_part (Sample.state_five Sample.echo) "A"
                Sample.agent_A [] None 2 eq_refl eq_refl eq_refl) as H.
  cbv zeta in H. destruct H as (Hsnap & _ & r & s' & req & H).
  split; [exact Hsnap|]. exists r, s', req. exact H.
Defined.

(** C8. With [max_turns = 0] the slice [history[-0:]] is the whole list:
    for a non-empty stored history (the history with the new messages
    appended) the outbound request carries the system turn followed by
    every stored message, not an empty window. *)
Theorem run_max_turns_zero_sends_whole_history (s : Swarm.state)
    (agent_name : string) (agent : Agent.t) (messages : list Message.t)
    (cv : option (PyDict.t value)) :
  PyDict.get agent_name (Swarm.agents (Swarm.self s)) = Some agent →
  ctx_ok s = true →
  let hist := Swarm.conversation_history (Swarm.self s) ++ messages in
  hist ≠ [] →
  Swarm.snapshot 0 hist = hist ∧
  ∃ r s' req,
    Swarm.run agent_name messages cv 0 s = (Ok r, s') ∧
    last (w_calls (Swarm.world s')) = Some req ∧
    req_messages req
      = Turn "system" (Agent.instructions agent) :: (Swarm.turn_of <$> hist) ∧
    List.length (req_messages req) = S (List.length hist) ∧
    req_messages req ≠ [Turn "system" (Agent.instructions agent)].
Proof.
  intros Hag Hctx hist Hne.
  split; [apply snapshot_zero|].
  destruct (run_registered_effects s agent_name agent messages cv 0 Hag Hctx)
    as (r & s' & Hrun & Hcalls & _).
  exists r, s', (outbound agent 0 hist). split; [done|]. split.
  { rewrite Hcalls. apply last_snoc. }
  unfold outbound, Swarm.api_messages. cbn [req_messages].
  rewrite snapshot_zero. split; [done|]. split.
  - cbn [List.length]. by rewrite length_fmap.
  - destruct hist; [done|]. discriminate.
Qed.

Lemma run_max_turns_zero_witness :
  ∃ r s' req,
    Swarm.run "A" [] None 0 (Sample.state_five Sample.echo) = (Ok r, s') ∧
    last (w_calls (Swarm.world s')) = Some req ∧
    req_messages req
      = Turn "system" "You are A." :: (Swarm.turn_of <$> Sample.five) ∧
    List.length (req_messages req) = 6%nat.
Proof.
  destruct (run_max_turns_zero_sends_whole_history
              (Sample.state_five Sample.echo) "A" Sample.agent_A [] None
              eq_refl eq_refl) as (_ & r & s' & req & Hrun & Hlast & Hreq & Hlen & _).
  { discriminate. }
  exists r, s', req. repeat split; assumption.
Defined.

(** ** Dictionaries *)

Section PyDictFacts.
Context {V : Type}.
Implicit Types (d : PyDict.t V) (k : string) (v : V).

Lemma get_set_eq d k v : PyDict.get k (PyDict.set k v d) = Some v.
Proof.
  induction d as [|[k' v'] d IH]; simpl.
  - by rewrite decide_True.
  - destruct (decide (k' = k)) as [->|Hne]; simpl.
    + by rewrite decide_True.
    + by rewrite decide_False.
Qed.

Lemma get_set_ne d k k' v :
  k ≠ k' → PyDict.get k' (PyDict.set k v d) = PyDict.get k' d.
Proof.
  intros Hne. induction d as [|[k0 v0] d IH]; simpl.
  - by rewrite decide_False.
  - destruct (decide (k0 = k)) as [->|Hne0]; simpl.
    + by rewrite !decide_False.
    + by rewrite IH.
Qed.

Lemma get_None_keys d k : PyDict.get k d = None ↔ k ∉ PyDict.keys d.
Proof.
  unfold PyDict.keys. induction d as [|[k' v'] d IH]; simpl.
  - split; [intros _; apply not_elem_of_nil | done].
  - rewrite not_elem_of_cons. destruct (decide (k' = k)) as [->|Hne].
    + split; [done | intros [? _]; done].
    + rewrite IH. split; [intros ?; split; [congruence | done] | by intros [_ ?]].
Qed.

Lemma keys_set d k v :
  PyDict.keys (PyDict.set k v d)
  = if PyDict.mem k d then PyDict.keys d else PyDict.keys d ++ [k].
Proof.
  unfold PyDict.keys, PyDict.mem.
  induction d as [|[k' v'] d IH]; cbn [PyDict.set PyDict.get]; [done|].
  destruct (decide (k' = k)) as [->|Hne]; [done|].
  rewrite !fmap_cons, IH. by destruct (PyDict.get k d).
Qed.

Lemma elem_of_keys_set d k v n :
  n ∈ PyDict.keys (PyDict.set k v d) ↔ n = k ∨ n ∈ PyDict.keys d.
Proof.
  rewrite keys_set. unfold PyDict.mem.
  destruct (PyDict.get k d) eqn:Hget.
  - split; [by right | intros [->|?]; [|done]].
    destruct (decide (k ∈ PyDict.keys d)) as [?|Hn]; [done|].
    apply get_None_keys in Hn. congruence.
  - rewrite elem_of_app, list_elem_of_singleton. tauto.
Qed.

Lemma NoDup_keys_set d k v :
  NoDup (PyDict.keys d) → NoDup (PyDict.keys (PyDict.set k v d)).
Proof.
  intros Hnd. rewrite keys_set. unfold PyDict.mem.
  destruct (PyDict.get k d) eqn:Hget; [done|].
  apply get_None_keys in Hget. apply NoDup_app. split; [done|]. split.
  - intros x Hx ->%list_elem_of_singleton. done.
  - apply NoDup_singleton.
Qed.

End PyDictFacts.

(** ** The registry *)

(** The registry after a sequence of additions. *)
Lemma for_each_add_agent (added : list Agent.t) (s : Swarm.state) :
  for_each Swarm.add_agent added s =
  (Ok tt,
   Swarm.mkState
     (Swarm.mk (Swarm.client (Swarm.self s))
               (fold_left (λ d a, PyDict.set (Agent.name a) a d) added
                          (Swarm.agents (Swarm.self s)))
               (Swarm.conversation_history (Swarm.self s))
               (Swarm.context_variables (Swarm.self s)))
     (Swarm.world s)).
Proof.
  revert s. induction added as [|a added IH]; intros [[c ags h x] w]; simpl.
  - done.
  - unfold bind at 1. unfold Swarm.add_agent at 1. py_eval. by rewrite IH.
Qed.

Lemma last_added_cons (n : string) (a : Agent.t) (added : list Agent.t) :
  last_added n (a :: added)
  = match last_added n added with
    | Some b => Some b
    | None => if decide (Agent.name a = n) then Some a else None
    end.
Proof.
  unfold last_added. rewrite filter_cons.
  destruct (decide (Agent.name a = n)); [|by destruct (last _)].
  rewrite last_cons. by destruct (last _).
Qed.

Lemma registry_fold (added : list Agent.t) (d : PyDict.t Agent.t) :
  NoDup (PyDict.keys d) →
  let d' := fold_left (λ d a, PyDict.set (Agent.name a) a d) added d in
  NoDup (PyDict.keys d') ∧
  (∀ n, n ∈ PyDict.keys d' ↔ n ∈ PyDict.keys d ∨ n ∈ Agent.name <$> added) ∧
  (∀ n, PyDict.get n d'
        = match last_added n added with
          | Some a => Some a
          | None => PyDict.get n d
          end).
Proof.
  revert d. induction added as [|a added IH]; intros d Hnd; simpl.
  - split; [done|]. split; [|done].
    intros n. rewrite elem_of_nil. tauto.
  - destruct (IH (PyDict.set (Agent.name a) a d)) as (Hnd' & Hkeys & Hget);
      [by apply NoDup_keys_set|].
    split; [done|]. split.
    + intros n. rewrite Hkeys, elem_of_keys_set, elem_of_cons. tauto.
    + intros n. rewrite Hget, last_added_cons.
      destruct (last_added n added); [done|].
      destruct (decide (Agent.name a = n)) as [<-|Hne].
      * apply get_set_eq.
      * by apply get_set_ne.
Qed.

(** C5. Starting from an empty registry, after any sequence of [add_agent]
    calls (names may repeat) [list_agents] returns the distinct names of
    the sequence, each once, and [get_agent] on a name returns the agent
    added last under that name (and nothing for a name never added). *)
Theorem registry_after_additions (s : Swarm.state) (added : list Agent.t) :
  Swarm.agents (Swarm.self s) = PyDict.empty →
  ∃ s' names,
    for_each Swarm.add_agent added s = (Ok tt, s') ∧
    Swarm.list_agents s' = (Ok names, s') ∧
    NoDup names ∧
    (∀ n, n ∈ names ↔ n ∈ Agent.name <$> added) ∧
    (∀ n, Swarm.get_agent n s' = (Ok (last_added n added), s')).
Proof.
  intros Hempty. rewrite for_each_add_agent, Hempty.
  destruct (registry_fold added PyDict.empty) as (Hnd & Hkeys & Hget);
    [apply NoDup_nil_2|].
  eexists _, _. split; [done|]. split; [reflexivity|].
  cbn [Swarm.self Swarm.agents]. split; [done|]. split.
  - intros n. rewrite Hkeys. unfold PyDict.keys, PyDict.empty. simpl.
    rewrite elem_of_nil. tauto.
  - intros n. unfold Swarm.get_agent. py_eval. rewrite Hget.
    by destruct (last_added n added).
Qed.

Lemma registry_after_additions_witness :
  ∃ s',
    for_each Swarm.add_agent
      [Sample.agent_A; Sample.agent_B; Sample.agent_A2] Sample.fresh
      = (Ok tt, s') ∧
    Swarm.list_agents s' = (Ok ["A"; "B"], s') ∧
    Swarm.get_agent "A" s' = (Ok (Some Sample.agent_A2), s') ∧
    Swarm.get_agent "B" s' = (Ok (Some Sample.agent_B), s').
Proof.
  destruct (registry_after_additions Sample.fresh
              [Sample.agent_A; Sample.agent_B; Sample.agent_A2] eq_refl)
    as (s' & names & Hrun & Hlist & _ & _ & Hget).
  exists s'. split; [exact Hrun|].
  injection Hrun as <-. split; [reflexivity|].
  split; [exact (Hget "A") | exact (Hget "B")].
Defined.

(** ** The context store *)

Lemma get_update {V} (d other : PyDict.t V) (k : string) :
  NoDup (PyDict.keys other) →
  PyDict.get k (PyDict.update d other)
  = match PyDict.get k other with
    | Some v => Some v
    | None => PyDict.get k d
    end.
Proof.
  unfold PyDict.update. revert d.
  induction other as [|[k0 v0] other IH]; intros d Hnd; [done|].
  unfold PyDict.keys in Hnd. rewrite fmap_cons in Hnd.
  apply NoDup_cons in Hnd as [Hk0 Hnd]. cbn [fst] in Hk0.
  cbn [fold_left fst snd PyDict.get]. rewrite IH by done.
  destruct (decide (k0 = k)) as [->|Hne].
  - apply get_None_keys in Hk0. rewrite Hk0. apply get_set_eq.
  - rewrite get_set_ne by done. done.
Qed.

Lemma ctx_ok_entries (s : Swarm.state) :
  ctx_ok s = true →
  w_heap (Swarm.world s) !! Swarm.context_variables (Swarm.self s)
  = Some (ODict (ctx_entries s)).
Proof.
  unfold ctx_ok, ctx_entries. by destruct (_ !! _) as [[|d]|].
Qed.

(** C10. With an empty agent sequence [multi_agent_run] returns the empty
    list, appends nothing to the history and calls nobody, yet the
    supplied context variables are merged into the context store: every
    key of the supplied dictionary reads back with the supplied value. *)
Theorem multi_agent_run_empty_sequence (s : Swarm.state) (text : string)
    (cv : option (PyDict.t value)) :
  ctx_ok s = true →
  ∃ s',
    Swarm.multi_agent_run [] text cv s = (Ok [], s') ∧
    Swarm.conversation_history (Swarm.self s')
      = Swarm.conversation_history (Swarm.self s) ∧
    w_calls (Swarm.world s') = w_calls (Swarm.world s) ∧
    ctx_entries s' = PyDict.update (ctx_entries s) (default PyDict.empty cv) ∧
    ∀ d key v default,
      cv = Some d → NoDup (PyDict.keys d) → PyDict.get key d = Some v →
      Swarm.get_context key default s' = (Ok v, s').
Proof.
  intros Hctx. pose proof (ctx_ok_entries s Hctx) as Hx.
  apply lookup_lt_Some in Hx as Hlen.
  unfold Swarm.multi_agent_run. unfold bind at 1.
  rewrite merge_context by done. cbn [Swarm.multi_agent_loop].
  eexists. split; [reflexivity|]. split; [done|]. split; [done|].
  assert (Hnew : ctx_entries
                   (Swarm.mkState (Swarm.self s)
                      (set_heap (λ h, <[Swarm.context_variables (Swarm.self s) :=
                                   ODict (PyDict.update (ctx_entries s)
                                            (default PyDict.empty cv))]> h)
                         (Swarm.world s)))
                 = PyDict.update (ctx_entries s) (default PyDict.empty cv)).
  { unfold ctx_entries at 1, set_heap.
    cbn [Swarm.self Swarm.world w_heap].
    by rewrite list_lookup_insert_eq. }
  split; [exact Hnew|].
  intros d key v dflt -> Hnd Hget.
  unfold Swarm.get_context. py_eval.
  rewrite list_lookup_insert_eq by done. cbn [default] in *. unfold id.
  rewrite get_update, Hget by done. reflexivity.
Qed.

Lemma multi_agent_run_empty_witness :
  ∃ s',
    Swarm.multi_agent_run [] "start" (Some [("k", VInt 1)])
                          (Sample.state Sample.echo) = (Ok [], s') ∧
    Swarm.conversation_history (Swarm.self s') = [] ∧
    ctx_entries s' = [("k", VInt 1)] ∧
    Swarm.get_context "k" VNone s' = (Ok (VInt 1), s').
Proof.
  destruct (multi_agent_run_empty_sequence (Sample.state Sample.echo) "start"
              (Some [("k", VInt 1)]) eq_refl)
    as (s' & Hrun & Hhist & _ & Hctx & Hget).
  exists s'. repeat split; [exact Hrun | exact Hhist | exact Hctx |].
  apply (Hget [("k", VInt 1)]); [reflexivity | | reflexivity].
  apply NoDup_singleton.
Defined.

(** The heap [run] leaves for a registered agent: the merged context
    dictionary in place, and its copy, which the result refers to, in a
    new object. *)
Lemma run_registered_context (s : Swarm.state) (agent_name : string)
    (agent : Agent.t) (messages : list Message.t)
    (cv : option (PyDict.t value)) (max_turns : Z) :
  PyDict.get agent_name (Swarm.agents (Swarm.self s)) = Some agent →
  ctx_ok s = true →
  let x := Swarm.context_variables (Swarm.self s) in
  let d := PyDict.update (ctx_entries s) (default PyDict.empty cv) in
  ∃ r s',
    Swarm.run agent_name messages cv max_turns s = (Ok r, s') ∧
    Swarm.context_variables (Swarm.self s') = x ∧
    SwarmResult.context_variables r = List.length (w_heap (Swarm.world s)) ∧
    w_heap (Swarm.world s') = <[x := ODict d]> (w_heap (Swarm.world s)) ++ [ODict d].
Proof.
  intros Hag Hctx x d.
  rewrite (run_registered s agent_name agent) by done.
  destruct (w_remote _ _ _) as [[|c cs]|e]; eexists _, _; by repeat split.
Qed.

(** C9. The context of a returned result is a copy of the top level of the
    context store made when [run] completes: it is a dictionary object of
    its own with the entries the store has at that time.  A later
    [set_context] (a new key or a rebinding) changes the store and leaves
    the dictionary of the result as it is; a mutation inside a container
    that a context value refers to (here an [append] to a list) is seen
    when that value is read through the result. *)
Theorem result_context_is_shallow_copy (s : Swarm.state) (agent_name : string)
    (agent : Agent.t) (messages : list Message.t)
    (cv : option (PyDict.t value)) (max_turns : Z) :
  PyDict.get agent_name (Swarm.agents (Swarm.self s)) = Some agent →
  ctx_ok s = true →
  ∃ r s1 d,
    Swarm.run agent_name messages cv max_turns s = (Ok r, s1) ∧
    let rc := SwarmResult.context_variables r in
    rc ≠ Swarm.context_variables (Swarm.self s1) ∧
    ctx_entries s1 = d ∧
    w_heap (Swarm.world s1) !! rc = Some (ODict d) ∧
    (∀ key v, ∃ s2,
        Swarm.set_context key v s1 = (Ok tt, s2) ∧
        PyDict.get key (ctx_entries s2) = Some v ∧
        w_heap (Swarm.world s2) !! rc = Some (ODict d)) ∧
    (∀ key l items x,
        PyDict.get key d = Some (VRef l) →
        w_heap (Swarm.world s1) !! l = Some (OList items) →
        ∃ w2,
          list_append l x (Swarm.world s1) = (Ok tt, w2) ∧
          result_lookup r key (Swarm.world s1)
            = Some (VRef l, Some (OList items)) ∧
          result_lookup r key w2
            = Some (VRef l, Some (OList (items ++ [x])))).
Proof.
  intros Hag Hctx.
  destruct (run_registered_context s agent_name agent messages cv max_turns
              Hag Hctx) as (r & s1 & Hrun & Hself & Hrc & Hheap).
  pose proof (ctx_ok_entries s Hctx) as Hx. apply lookup_lt_Some in Hx as Hlen.
  set (x := Swarm.context_variables (Swarm.self s)) in *.
  set (d := PyDict.update (ctx_entries s) (default PyDict.empty cv)) in *.
  set (h := w_heap (Swarm.world s)) in *.
  assert (Hx1 : w_heap (Swarm.world s1) !! x = Some (ODict d)).
  { rewrite Hheap, lookup_app_l by (by rewrite length_insert).
    by apply list_lookup_insert_eq. }
  assert (Hrc1 : w_heap (Swarm.world s1) !! List.length h = Some (ODict d)).
  { rewrite Hheap. apply list_lookup_middle. by rewrite length_insert. }
  exists r, s1, d. split; [done|]. cbv zeta. rewrite Hrc, Hself.
  split; [lia|]. split.
  { unfold ctx_entries. by rewrite Hself, Hx1. }
  split; [done|]. split.
  - intros key v. eexists. split; [|split].
    + unfold Swarm.set_context. py_eval. rewrite Hself, Hx1. reflexivity.
    + unfold ctx_entries. cbn [Swarm.self Swarm.world w_heap].
      rewrite Hself, list_lookup_insert_eq by (by eapply lookup_lt_Some).
      apply get_set_eq.
    + cbn [Swarm.world w_heap]. rewrite list_lookup_insert_ne by lia. done.
  - intros key l items v Hkey Hl.
    unfold list_append, result_lookup. rewrite Hl, Hrc, Hrc1, Hkey.
    eexists. split; [reflexivity|]. split; [by rewrite Hl|].
    unfold set_heap. cbn [w_heap].
    assert (l ≠ List.length h) by congruence.
    rewrite list_lookup_insert_ne, Hrc1, Hkey by done.
    by rewrite list_lookup_insert_eq by (by eapply lookup_lt_Some).
Qed.

Lemma result_context_witness :
  ∃ r s1,
    Swarm.run "A" [] None 10 (Sample.state_nested Sample.echo) = (Ok r, s1) ∧
    SwarmResult.context_variables r = 2%nat ∧
    Swarm.context_variables (Swarm.self s1) = 0%nat ∧
    (∃ s2, Swarm.set_context "n" (VInt 2) s1 = (Ok tt, s2) ∧
           PyDict.get "n" (ctx_entries s2) = Some (VInt 2) ∧
           result_lookup r "n" (Swarm.world s2) = Some (VInt 1, None)) ∧
    (∃ w2, list_append 1 (VStr "b") (Swarm.world s1) = (Ok tt, w2) ∧
           result_lookup r "todo" (Swarm.world s1)
             = Some (VRef 1, Some (OList [VStr "a"])) ∧
           result_lookup r "todo" w2
             = Some (VRef 1, Some (OList [VStr "a"; VStr "b"]))).
Proof.
  destruct (result_context_is_shallow_copy (Sample.state_nested Sample.echo)
              "A" Sample.agent_A [] None 10 eq_refl eq_refl)
    as (r & s1 & d & Hrun & _ & _ & _ & Hset & Happ).
  exists r, s1. split; [exact Hrun|].
  injection Hrun as <- <-.
  split; [reflexivity|]. split; [reflexivity|]. split.
  - eexists. repeat split.
  - eexists. repeat split.
Defined.

(** ** Construction and the credential *)

Lemma init_without_credential (api_key : option string) (w : World) :
  truthy_str api_key = None →
  truthy_str (w_environ w "OPENAI_API_KEY") = None →
  Swarm.init api_key w = (Raise ConfigurationError, w).
Proof.
  intros Hkey Henv. unfold Swarm.init, bind at 1. rewrite Hkey.
  unfold bind at 1, getenv at 1. by rewrite Henv.
Qed.

Lemma init_with_credential (api_key : option string) (w : World) (k : string) :
  truthy_str api_key = Some k ∨
  (truthy_str api_key = None ∧ truthy_str (w_environ w "OPENAI_API_KEY") = Some k) →
  Swarm.init api_key w
  = (Ok (Swarm.mk k PyDict.empty [] (List.length (w_heap w))),
     set_heap (λ h, h ++ [ODict PyDict.empty]) w).
Proof.
  intros [Hkey|[Hkey Henv]]; unfold Swarm.init, bind at 1; rewrite Hkey.
  - reflexivity.
  - unfold bind at 1, getenv at 1. by rewrite Henv.
Qed.

Lemma AgentNotFound_not_ConfigurationError (agent_name : string) :
  AgentNotFound agent_name ≠ ConfigurationError.
Proof. unfold AgentNotFound, ConfigurationError. discriminate. Qed.

(** The only exception [run] raises is the agent-not-found error. *)
Lemma run_raises_only_not_found (s s' : Swarm.state) (agent_name : string)
    (messages : list Message.t) (cv : option (PyDict.t value)) (max_turns : Z)
    (e : exn) :
  ctx_ok s = true →
  Swarm.run agent_name messages cv max_turns s = (Raise e, s') →
  registered agent_name s = false ∧ e = AgentNotFound agent_name.
Proof.
  intros Hctx Hrun. destruct (registered agent_name s) eqn:Hreg.
  - apply registered_get in Hreg as [agent Hag].
    destruct (run_registered_effects s agent_name agent messages cv max_turns
                Hag Hctx) as (r & s1 & Hrun' & _).
    congruence.
  - rewrite run_unregistered in Hrun by (by apply not_registered_get).
    split; [done | unfold AgentNotFound; congruence].
Qed.

Lemma multi_agent_loop_raises_only_not_found (agent_sequence : list string) :
  ∀ (s s' : Swarm.state) (current : string) (results : list SwarmResult.t)
    (e : exn),
    ctx_ok s = true →
    Swarm.multi_agent_loop agent_sequence current results s = (Raise e, s') →
    ∃ n, n ∈ agent_sequence ∧ e = AgentNotFound n.
Proof.
  induction agent_sequence as [|n rest IH]; intros s s' current results e Hctx Hrun.
  - discriminate Hrun.
  - cbn [Swarm.multi_agent_loop] in Hrun. unfold bind at 1 in Hrun.
    unfold Swarm.in_world at 1, Message.init, bind at 1, now_isoformat, ret in Hrun.
    cbn [Swarm.world Swarm.self] in Hrun. unfold bind at 1 in Hrun.
    match type of Hrun with
    | context [Swarm.run n ?ms None 10 ?s0] =>
        set (s0' := s0) in *; set (ms' := ms) in *
    end.
    assert (Hctx0 : ctx_ok s0' = true) by exact Hctx.
    destruct (Swarm.run n ms' None 10 s0') as [[r|e0] s1] eqn:Hstep.
    + destruct (registered n s0') eqn:Hreg.
      * apply registered_get in Hreg as [agent Hag].
        destruct (run_registered_effects s0' n agent ms' None 10 Hag Hctx0)
          as (r' & s1' & Hrun' & _ & _ & _ & Hctx1 & _).
        rewrite Hstep in Hrun'. injection Hrun' as -> ->.
        destruct (IH _ _ _ _ _ Hctx1 Hrun) as (m & Hm & ->).
        exists m. split; [by right | done].
      * rewrite run_unregistered in Hstep by (by apply not_registered_get).
        discriminate.
    + injection Hrun as -> ->.
      apply run_raises_only_not_found in Hstep as [_ ->]; [|done].
      exists n. split; [by left | done].
Qed.

(** C7. Constructing a [Swarm] without a usable [api_key] argument and
    without a usable [OPENAI_API_KEY] in the environment ([None] or the
    empty string) raises the configuration error ([ValueError]) at
    construction and builds nothing.  With a key from the argument, or
    else from the environment, construction succeeds with an empty
    registry, history and context.  No later call raises the
    configuration error: [run] and [multi_agent_run] raise the
    agent-not-found error and nothing else. *)
Theorem swarm_construction_credential (api_key : option string) (w : World) :
  (truthy_str api_key = None →
   truthy_str (w_environ w "OPENAI_API_KEY") = None →
   Swarm.init api_key w = (Raise ConfigurationError, w)) ∧
  (∀ k,
     truthy_str api_key = Some k ∨
     (truthy_str api_key = None ∧
      truthy_str (w_environ w "OPENAI_API_KEY") = Some k) →
     ∃ me w',
       Swarm.init api_key w = (Ok me, w') ∧
       Swarm.client me = k ∧
       Swarm.agents me = PyDict.empty ∧
       Swarm.conversation_history me = [] ∧
       ctx_ok (Swarm.mkState me w') = true ∧
       ctx_entries (Swarm.mkState me w') = PyDict.empty) ∧
  (∀ s s' agent_name messages cv max_turns e,
     ctx_ok s = true →
     Swarm.run agent_name messages cv max_turns s = (Raise e, s') →
     e = AgentNotFound agent_name ∧ e ≠ ConfigurationError) ∧
  (∀ s s' agent_sequence text cv e,
     ctx_ok s = true →
     Swarm.multi_agent_run agent_sequence text cv s = (Raise e, s') →
     (∃ n, n ∈ agent_sequence ∧ e = AgentNotFound n) ∧ e ≠ ConfigurationError).
Proof.
  split; [apply init_without_credential|]. split; [|split].
  - intros k Hk. rewrite (init_with_credential api_key w k Hk).
    eexists _, _. split; [reflexivity|]. repeat split.
    + unfold ctx_ok, set_heap. cbn [Swarm.self Swarm.world Swarm.context_variables w_heap].
      by rewrite list_lookup_middle.
    + unfold ctx_entries, set_heap. cbn [Swarm.self Swarm.world Swarm.context_variables w_heap].
      by rewrite list_lookup_middle.
  - intros s s' agent_name messages cv max_turns e Hctx Hrun.
    apply run_raises_only_not_found in Hrun as [_ ->]; [|done].
    split; [done | apply AgentNotFound_not_ConfigurationError].
  - intros s s' agent_sequence text cv e Hctx Hrun.
    unfold Swarm.multi_agent_run, bind at 1 in Hrun.
    rewrite merge_context in Hrun by done.
    apply multi_agent_loop_raises_only_not_found in Hrun as (n & Hn & ->).
    + split; [by exists n | apply AgentNotFound_not_ConfigurationError].
    + pose proof (ctx_ok_entries s Hctx) as Hx. apply lookup_lt_Some in Hx.
      unfold ctx_ok, set_heap. cbn [Swarm.self Swarm.world w_heap].
      by rewrite list_lookup_insert_eq.
Qed.

Lemma swarm_construction_witness :
  Swarm.init None (Sample.bare Sample.echo)
    = (Raise ConfigurationError, Sample.bare Sample.echo) ∧
  (∃ me w', Swarm.init (Some "sk-test") (Sample.bare Sample.echo) = (Ok me, w') ∧
            Swarm.client me = "sk-test" ∧
            Swarm.agents me = PyDict.empty ∧
            Swarm.conversation_history me = [] ∧
            ctx_ok (Swarm.mkState me w') = true ∧
            ctx_entries (Swarm.mkState me w') = PyDict.empty).
Proof.
  split.
  - apply (swarm_construction_credential None (Sample.bare Sample.echo));
      reflexivity.
  - apply (swarm_construction_credential (Some "sk-test")
             (Sample.bare Sample.echo)).
    left. reflexivity.
Defined.

(** ** Sequential runs *)

Lemma last_snapshot_snoc (limit : Z) (h : list Message.t) (m : Message.t) :
  0 < limit → last (Swarm.snapshot limit (h ++ [m])) = Some m.
Proof.
  intros Hpos. rewrite snapshot_positive by done. unfold last_n.
  rewrite length_app. cbn [List.length].
  rewrite drop_app_le by lia. apply last_snoc.
Qed.

(** What [run] appends to the history for a registered agent: the new
    messages, then the answer or nothing. *)
Lemma run_registered_appends (s : Swarm.state) (agent_name : string)
    (agent : Agent.t) (messages : list Message.t)
    (cv : option (PyDict.t value)) (max_turns : Z) :
  PyDict.get agent_name (Swarm.agents (Swarm.self s)) = Some agent →
  ctx_ok s = true →
  ∃ r s' tail,
    Swarm.run agent_name messages cv max_turns s = (Ok r, s') ∧
    Swarm.conversation_history (Swarm.self s')
      = Swarm.conversation_history (Swarm.self s) ++ messages ++ tail ∧
    Forall (λ m, Message.role m = "assistant") tail.
Proof.
  intros Hag Hctx. rewrite (run_registered s agent_name agent) by done.
  destruct (w_remote _ _ _) as [[|c cs]|e].
  - eexists _, _, []. rewrite app_nil_r. by repeat split.
  - eexists _, _, [_]. split; [reflexivity|]. split; [reflexivity|].
    by apply Forall_singleton.
  - eexists _, _, []. rewrite app_nil_r. by repeat split.
Qed.

Lemma multi_agent_loop_chain (names : list string) :
  ∀ (s : Swarm.state) (current : string) (acc : list SwarmResult.t),
    ctx_ok s = true →
    forallb (λ n, registered n s) names = true →
    ∃ results s' requests appended,
      Swarm.multi_agent_loop names current acc s = (Ok (acc ++ results), s') ∧
      List.length results = List.length names ∧
      w_calls (Swarm.world s') = w_calls (Swarm.world s) ++ requests ∧
      chain (Swarm.agents (Swarm.self s)) current names results requests ∧
      Swarm.conversation_history (Swarm.self s')
        = Swarm.conversation_history (Swarm.self s) ++ appended ∧
      Message.content <$> filter (λ m, Message.role m = "user") appended
        = take (List.length names) (current :: (output <$> results)).
Proof.
  induction names as [|n rest IH]; intros s current acc Hctx Hreg.
  - exists [], s, [], []. rewrite !app_nil_r. by repeat split.
  - cbn [forallb] in Hreg. apply andb_prop in Hreg as [Hn Hrest].
    apply registered_get in Hn as [agent Hag].
    cbn [Swarm.multi_agent_loop]. unfold bind at 1.
    unfold Swarm.in_world at 1, Message.init, bind at 1, now_isoformat, ret.
    cbn [Swarm.world Swarm.self]. unfold bind at 1.
    match goal with
    | |- context [Swarm.run n [?m] None 10 ?s0] =>
        set (s0' := s0); set (msg := m)
    end.
    assert (Hctx0 : ctx_ok s0' = true) by exact Hctx.
    assert (Hag0 : PyDict.get n (Swarm.agents (Swarm.self s0')) = Some agent)
      by exact Hag.
    destruct (run_registered_effects s0' n agent [msg] None 10 Hag0 Hctx0)
      as (r & s1 & Hrun & Hcalls & _ & Hags & Hctx1 & Hagent & m & Hmsgs & _).
    destruct (run_registered_appends s0' n agent [msg] None 10 Hag0 Hctx0)
      as (r' & s1' & tail & Hrun' & Hhist & Htail).
    rewrite Hrun in Hrun'. injection Hrun' as <- <-.
    change (Swarm.agents (Swarm.self s0')) with (Swarm.agents (Swarm.self s))
      in Hags.
    rewrite Hrun, Hmsgs. cbn [last].
    destruct (IH s1 (Message.content m) (acc ++ [r]) Hctx1)
      as (results & s' & requests & appended & Hloop & Hlen & Hcalls' & Hchain
          & Hhist' & Husers).
    { unfold registered in *. by rewrite Hags. }
    exists (r :: results), s',
      (outbound agent 10 (Swarm.conversation_history (Swarm.self s) ++ [msg])
       :: requests),
      ([msg] ++ tail ++ appended).
    split; [by rewrite Hloop, <- app_assoc|].
    split; [cbn [List.length]; by rewrite Hlen|].
    split; [rewrite Hcalls', Hcalls; by rewrite <- app_assoc|].
    split; [|split].
    + cbn [chain]. rewrite Hagent. split; [done|]. split; [done|]. split.
      * unfold outbound, Swarm.api_messages. cbn [req_messages].
        rewrite last_cons, fmap_last, last_snapshot_snoc by done. done.
      * exists m. split; [done|]. by rewrite <- Hags.
    + rewrite Hhist', Hhist. cbn [Swarm.conversation_history Swarm.self s0'].
      by rewrite <- !app_assoc.
    + rewrite !filter_app, !fmap_app.
      assert (Hnone : filter (λ m, Message.role m = "user") tail = []).
      { clear -Htail. induction Htail as [|x l Hx _ IHl]; [done|].
        rewrite filter_cons, decide_False; [done|]. rewrite Hx. discriminate. }
      rewrite Hnone. cbn [fmap list_fmap app List.length take].
      rewrite filter_cons, decide_True by done.
      rewrite filter_nil. cbn [fmap list_fmap app Message.content msg].
      f_equal. rewrite Husers. unfold output at 2. rewrite Hmsgs. done.
Qed.

(** C4. For a sequence of registered agent names and an initial text,
    [multi_agent_run] raises nothing and returns one result per name,
    whatever the remote service answers (a degraded result counts like
    any other).  The agents are called once each, in order: the requests
    logged are one per name, the request for a name has the instructions
    of the agent registered under it as system turn and, as last turn, a
    user turn with the initial text for the first agent and with the
    content of the previous result, verbatim, for every other.  The
    user messages appended to the history are exactly these inputs, one
    per agent. *)
Theorem multi_agent_run_feeds_forward (s : Swarm.state) (names : list string)
    (text : string) (cv : option (PyDict.t value)) :
  ctx_ok s = true →
  forallb (λ n, registered n s) names = true →
  ∃ results s' requests appended,
    Swarm.multi_agent_run names text cv s = (Ok results, s') ∧
    List.length results = List.length names ∧
    w_calls (Swarm.world s') = w_calls (Swarm.world s) ++ requests ∧
    chain (Swarm.agents (Swarm.self s)) text names results requests ∧
    Swarm.conversation_history (Swarm.self s')
      = Swarm.conversation_history (Swarm.self s) ++ appended ∧
    Message.content <$> filter (λ m, Message.role m = "user") appended
      = take (List.length names) (text :: (output <$> results)).
Proof.
  intros Hctx Hreg.
  unfold Swarm.multi_agent_run, bind at 1. rewrite merge_context by done.
  match goal with
  | |- context [Swarm.multi_agent_loop names text [] ?s0] => set (s0' := s0)
  end.
  assert (Hctx0 : ctx_ok s0' = true).
  { pose proof (ctx_ok_entries s Hctx) as Hx. apply lookup_lt_Some in Hx.
    unfold ctx_ok, s0', set_heap. cbn [Swarm.self Swarm.world w_heap].
    by rewrite list_lookup_insert_eq. }
  destruct (multi_agent_loop_chain names s0' text [] Hctx0 Hreg)
    as (results & s' & requests & appended & Hloop & H).
  exists results, s', requests, appended. split; [exact Hloop | exact H].
Qed.

Lemma multi_agent_run_echo_witness :
  (∃ results s' requests appended,
      Swarm.multi_agent_run ["A"; "B"] "start" None (Sample.state Sample.echo)
        = (Ok results, s') ∧
      List.length results = 2%nat ∧
      w_calls (Swarm.world s') = [] ++ requests ∧
      chain [("A", Sample.agent_A); ("B", Sample.agent_B)] "start" ["A"; "B"]
            results requests ∧
      Swarm.conversation_history (Swarm.self s') = [] ++ appended ∧
      Message.content <$> filter (λ m, Message.role m = "user") appended
        = take 2 ("start" :: (output <$> results))) ∧
  (∃ r0 r1 q0 q1 s',
      Swarm.multi_agent_run ["A"; "B"] "start" None (Sample.state Sample.echo)
        = (Ok [r0; r1], s') ∧
      w_calls (Swarm.world s') = [q0; q1] ∧
      SwarmResult.agent r0 = Sample.agent_A ∧
      SwarmResult.agent r1 = Sample.agent_B ∧
      output r0 = "start" ∧
      last (req_messages q1) = Some (Turn "user" (output r0))).
Proof.
  split.
  - apply (multi_agent_run_feeds_forward (Sample.state Sample.echo)
             ["A"; "B"] "start" None); reflexivity.
  - eexists _, _, _, _, _. split; [vm_compute; reflexivity|].
    repeat split.
Defined.

(** A degraded result is fed forward like any other: with the remote
    service down, the second agent receives the error text of the first,
    and the history holds the two inputs only. *)
Example multi_agent_run_degraded_example :
  ∃ r0 r1 q0 q1 s',
    Swarm.multi_agent_run ["A"; "B"] "start" None (Sample.state Sample.failing)
      = (Ok [r0; r1], s') ∧
    w_calls (Swarm.world s') = [q0; q1] ∧
    output r0 = "Error: boom" ∧
    last (req_messages q1) = Some (Turn "user" "Error: boom") ∧
    Message.content <$> Swarm.conversation_history (Swarm.self s')
      = ["start"; "Error: boom"].
Proof.
  eexists _, _, _, _, _. split; [vm_compute; reflexivity|]. repeat split.
Qed.

(** ** Persistence *)

(** What [json.dump] makes of [asdict(agent)]: a document when the agent
    has no callable, a [TypeError] on the first callable otherwise. *)
Lemma encode_agent_asdict (h : heap) (a : Agent.t) :
  encode h (Agent.asdict a)
  = match Agent.functions a with
    | [] =>
        Ok (JObj [("name", JStr (Agent.name a));
                  ("instructions", JStr (Agent.instructions a));
                  ("functions", JList []);
                  ("model", JStr (Agent.model a));
                  ("temperature", JFloat (Agent.temperature a));
                  ("max_tokens", JInt (Agent.max_tokens a))])
    | _ :: _ => Raise not_serializable
    end.
Proof. destruct a as [n i [|f fs] m t mt]; reflexivity. Qed.

Lemma traverse_raise {A B} (f : A → outcome B) (xs : list A) (x : A) (e : exn) :
  x ∈ xs →
  (∀ y, y ∈ xs → f y = Raise e ∨ ∃ b, f y = Ok b) →
  f x = Raise e →
  traverse f xs = Raise e.
Proof.
  intros Hx Hall Hfx. induction xs as [|y xs IH]; [by apply elem_of_nil in Hx|].
  cbn [traverse]. destruct (Hall y) as [Hy|[b Hy]]; [by left | by rewrite Hy |].
  rewrite Hy. rewrite IH; [done | | by intros; apply Hall; right].
  apply elem_of_cons in Hx as [->|?]; [congruence | done].
Qed.

Lemma traverse_asdict_no_function_call (h : heap) (history : list Message.t) :
  Forall (λ m, Message.function_call m = None) history →
  ∃ ds, traverse (Message.asdict h) history = Ok ds.
Proof.
  induction 1 as [|m ms Hm _ [ds IH]]; [by eexists|].
  cbn [traverse]. unfold Message.asdict at 1. rewrite Hm, IH. by eexists.
Qed.

(** [save_state] raises [TypeError] as soon as one registered agent has a
    callable, and leaves a truncated file behind. *)
Lemma save_state_with_callable (s : Swarm.state) (filename : string)
    (entry : string * Agent.t) :
  entry ∈ Swarm.agents (Swarm.self s) →
  Agent.functions entry.2 ≠ [] →
  Forall (λ m, Message.function_call m = None)
         (Swarm.conversation_history (Swarm.self s)) →
  ∃ s',
    Swarm.save_state filename s = (Raise not_serializable, s') ∧
    Swarm.self s' = Swarm.self s ∧
    w_fs (Swarm.world s') = <[filename := FMalformed]> (w_fs (Swarm.world s)).
Proof.
  intros Hin Hfun Hhist.
  destruct (traverse_asdict_no_function_call (w_heap (Swarm.world s)) _ Hhist)
    as [ds Hds].
  unfold Swarm.save_state, Swarm.json_dump. py_eval. rewrite Hds.
  cbn [encode traverse fst snd omap].
  assert (Hagents :
    traverse (λ kv : string * pyobj,
                omap (pair kv.1) (encode (w_heap (Swarm.world s)) kv.2))
             ((λ kv : string * Agent.t, (kv.1, Agent.asdict kv.2))
                <$> Swarm.agents (Swarm.self s))
    = Raise not_serializable).
  { apply (traverse_raise _ _ (entry.1, Agent.asdict entry.2)).
    - apply list_elem_of_fmap. by exists entry.
    - intros y (a & -> & _)%list_elem_of_fmap. cbn [fst snd].
      rewrite encode_agent_asdict. destruct (Agent.functions a.2); eauto.
    - cbn [fst snd]. rewrite encode_agent_asdict.
      by destruct (Agent.functions entry.2). }
  rewrite Hagents. cbn [omap]. eexists. split; [reflexivity|].
  split; [done|]. cbn [Swarm.world w_fs]. by rewrite insert_insert_eq.
Qed.

(** [load_state] on a truncated file raises the decoder's error and
    changes nothing. *)
Lemma load_state_malformed (s : Swarm.state) (filename : string) :
  w_fs (Swarm.world s) !! filename = Some FMalformed →
  Swarm.load_state filename s
  = (Raise (Exn JSONDecodeError "Expecting value"), s).
Proof.
  intros Hfile. unfold Swarm.load_state, Swarm.json_load, bind at 1,
    Swarm.in_world at 1. rewrite Hfile. by destruct s.
Qed.

(** C2 fails on the code for a swarm whose one agent has a callable:
    [save_state] raises [TypeError] while writing the agent, the file is
    left truncated, and [load_state] into a fresh swarm raises the
    decoder's error; no state is reproduced. *)
Theorem save_state_fails_on_callables :
  Agent.functions Sample.agent_tool = [7%nat] ∧
  ∃ s',
    Swarm.save_state "swarm_state.json" (Sample.state_tool Sample.echo)
      = (Raise not_serializable, s') ∧
    w_fs (Swarm.world s') !! "swarm_state.json" = Some FMalformed ∧
    ∀ me,
      Swarm.load_state "swarm_state.json" (Swarm.mkState me (Swarm.world s'))
      = (Raise (Exn JSONDecodeError "Expecting value"),
         Swarm.mkState me (Swarm.world s')).
Proof.
  split; [reflexivity|].
  destruct (save_state_with_callable (Sample.state_tool Sample.echo)
              "swarm_state.json" ("tool", Sample.agent_tool))
    as (s' & Hsave & _ & Hfs).
  - apply list_elem_of_singleton. reflexivity.
  - discriminate.
  - apply Forall_nil_2.
  - exists s'. split; [exact Hsave|].
    assert (Hfile : w_fs (Swarm.world s') !! "swarm_state.json" = Some FMalformed)
      by (rewrite Hfs; apply lookup_insert_eq).
    split; [exact Hfile|].
    intros me. by apply load_state_malformed.
Qed.

(** Without callables the round trip works: saving a swarm with two
    agents, two messages and two context variables, and loading the file
    into a fresh swarm, gives back the same agents, the same messages in
    the same order and the same context entries. *)
Example save_load_round_trip_example :
  ∃ s1 s2,
    Swarm.save_state "swarm_state.json" Sample.state_saved = (Ok tt, s1) ∧
    Swarm.load_state "swarm_state.json"
      (Swarm.mkState (Swarm.mk "sk-other" PyDict.empty [] 0) (Swarm.world s1))
      = (Ok tt, s2) ∧
    Swarm.agents (Swarm.self s2) = Swarm.agents (Swarm.self Sample.state_saved) ∧
    Swarm.conversation_history (Swarm.self s2)
      = Swarm.conversation_history (Swarm.self Sample.state_saved) ∧
    ctx_entries s2 = ctx_entries Sample.state_saved ∧
    Swarm.context_variables (Swarm.self s2)
      ≠ Swarm.context_variables (Swarm.self Sample.state_saved).
Proof.
  eexists _, _. split; [vm_compute; reflexivity|].
  split; [vm_compute; reflexivity|].
  repeat split. discriminate.
Qed.

(** * Further properties of the registry, the stores and the calls *)

(** ** Removing agents *)

Lemma filter_all {A} (P : A → Prop) `{∀ x, Decision (P x)} (l : list A) :
  Forall P l → filter P l = l.
Proof.
  induction 1 as [|x l Hx _ IH]; [done|].
  by rewrite filter_cons_True, IH.
Qed.

Section PyDictRemoval.
Context {V : Type}.
Implicit Types (d : PyDict.t V) (k : string) (v : V).

Lemma get_del_ne d k k' :
  k ≠ k' → PyDict.get k' (PyDict.del k d) = PyDict.get k' d.
Proof.
  intros Hne. induction d as [|[k0 v0] d IH]; [done|].
  cbn [PyDict.del PyDict.get]. destruct (decide (k0 = k)) as [->|Hk0].
  - by rewrite decide_False.
  - cbn [PyDict.get]. by rewrite IH.
Qed.

Lemma get_del_eq d k :
  NoDup (PyDict.keys d) → PyDict.get k (PyDict.del k d) = None.
Proof.
  unfold PyDict.keys. induction d as [|[k0 v0] d IH]; [done|].
  rewrite fmap_cons. intros [Hk0 Hnd]%NoDup_cons. cbn [fst] in Hk0.
  cbn [PyDict.del]. destruct (decide (k0 = k)) as [->|Hne].
  - by apply get_None_keys.
  - cbn [PyDict.get]. rewrite decide_False by done. by apply IH.
Qed.

Lemma keys_del d k :
  NoDup (PyDict.keys d) →
  PyDict.keys (PyDict.del k d) = filter (λ n, n ≠ k) (PyDict.keys d).
Proof.
  unfold PyDict.keys. induction d as [|[k0 v0] d IH]; [done|].
  rewrite fmap_cons. intros [Hk0 Hnd]%NoDup_cons. cbn [fst] in *.
  cbn [PyDict.del]. rewrite filter_cons.
  destruct (decide (k0 = k)) as [->|Hne].
  - rewrite decide_False by (by intros []).
    symmetry. apply filter_all, Forall_forall. intros n Hn ->. done.
  - rewrite decide_True by done. rewrite fmap_cons. cbn [fst]. by rewrite IH.
Qed.

Lemma del_absent d k : PyDict.get k d = None → PyDict.del k d = d.
Proof.
  induction d as [|[k0 v0] d IH]; [done|]. cbn [PyDict.get PyDict.del].
  destruct (decide (k0 = k)); [done|]. intros Hget. by rewrite IH.
Qed.

Lemma del_set_fresh d k v :
  PyDict.get k d = None → PyDict.del k (PyDict.set k v d) = d.
Proof.
  induction d as [|[k0 v0] d IH]; cbn [PyDict.get PyDict.set PyDict.del].
  - by rewrite decide_True.
  - destruct (decide (k0 = k)) as [->|Hne]; [done|]. intros Hget.
    cbn [PyDict.del]. rewrite decide_False by done. by rewrite IH.
Qed.

End PyDictRemoval.

(** X1. [remove_agent] answers whether the name was registered.
    Afterwards the name is not registered, every other name still maps to
    the same agent, the remaining names keep their order in
    [list_agents], and history and world are untouched; removing a name
    that is not registered changes nothing at all. *)
Theorem remove_agent_effect (s : Swarm.state) (agent_name : string) :
  NoDup (PyDict.keys (Swarm.agents (Swarm.self s))) →
  ∃ s',
    Swarm.remove_agent agent_name s = (Ok (registered agent_name s), s') ∧
    Swarm.get_agent agent_name s' = (Ok None, s') ∧
    (∀ n, n ≠ agent_name →
          Swarm.get_agent n s'
          = (Ok (PyDict.get n (Swarm.agents (Swarm.self s))), s')) ∧
    Swarm.list_agents s'
      = (Ok (filter (λ n, n ≠ agent_name)
                    (PyDict.keys (Swarm.agents (Swarm.self s)))), s') ∧
    Swarm.conversation_history (Swarm.self s')
      = Swarm.conversation_history (Swarm.self s) ∧
    Swarm.world s' = Swarm.world s ∧
    (registered agent_name s = false → s' = s).
Proof.
  intros Hnd. destruct s as [[c ags h x] w].
  cbn [Swarm.self Swarm.agents] in Hnd.
  unfold Swarm.remove_agent, registered, PyDict.mem. py_eval.
  destruct (PyDict.get agent_name ags) as [a|] eqn:Hget.
  - eexists. split; [reflexivity|]. unfold Swarm.get_agent, Swarm.list_agents.
    py_eval. rewrite get_del_eq, keys_del by done.
    repeat split; try done. intros n Hn. by rewrite get_del_ne.
  - eexists. split; [reflexivity|]. unfold Swarm.get_agent, Swarm.list_agents.
    py_eval. rewrite Hget.
    assert (Hall : Forall (λ n, n ≠ agent_name) (PyDict.keys ags)).
    { apply Forall_forall. intros n Hn ->. by apply get_None_keys in Hget. }
    rewrite (filter_all _ _ Hall). by repeat split.
Qed.

Lemma remove_agent_witness :
  ∃ s',
    Swarm.remove_agent "A" (Sample.state Sample.echo) = (Ok true, s') ∧
    Swarm.get_agent "A" s' = (Ok None, s') ∧
    Swarm.get_agent "B" s' = (Ok (Some Sample.agent_B), s') ∧
    Swarm.list_agents s' = (Ok ["B"], s').
Proof.
  destruct (remove_agent_effect (Sample.state Sample.echo) "A")
    as (s' & Hrm & HA & Hother & Hlist & _).
  { apply (bool_decide_unpack _). reflexivity. }
  exists s'. split; [exact Hrm|]. split; [exact HA|]. split.
  - apply (Hother "B"). discriminate.
  - exact Hlist.
Defined.

(** ** Adding agents *)

(** X2. [add_agent] registers the agent under its own name: [get_agent]
    on that name returns it, every other name maps to what it mapped to
    before, and [list_agents] is unchanged when the name was already
    registered (the entry is replaced in place) and has the name appended
    at the end otherwise.  History and world are untouched. *)
Theorem add_agent_effect (s : Swarm.state) (agent : Agent.t) :
  ∃ s',
    Swarm.add_agent agent s = (Ok tt, s') ∧
    Swarm.get_agent (Agent.name agent) s' = (Ok (Some agent), s') ∧
    (∀ n, n ≠ Agent.name agent →
          Swarm.get_agent n s'
          = (Ok (PyDict.get n (Swarm.agents (Swarm.self s))), s')) ∧
    Swarm.list_agents s'
      = (Ok (if registered (Agent.name agent) s
             then PyDict.keys (Swarm.agents (Swarm.self s))
             else PyDict.keys (Swarm.agents (Swarm.self s)) ++ [Agent.name agent]),
         s') ∧
    Swarm.conversation_history (Swarm.self s')
      = Swarm.conversation_history (Swarm.self s) ∧
    Swarm.world s' = Swarm.world s.
Proof.
  destruct s as [[c ags h x] w]. eexists. split; [reflexivity|].
  unfold Swarm.get_agent, Swarm.list_agents, registered. py_eval.
  rewrite get_set_eq, keys_set. repeat split; try done.
  intros n Hn. by rewrite get_set_ne.
Qed.

(** X3. Adding an agent under a name that is not registered and then
    removing that name gives back the state one started from, and
    [remove_agent] answers [True]. *)
Theorem add_then_remove_agent (s : Swarm.state) (agent : Agent.t) :
  registered (Agent.name agent) s = false →
  (Swarm.add_agent agent ;;; Swarm.remove_agent (Agent.name agent)) s
  = (Ok true, s).
Proof.
  intros Hreg%not_registered_get. destruct s as [[c ags h x] w].
  cbn [Swarm.self Swarm.agents] in Hreg.
  unfold Swarm.add_agent, Swarm.remove_agent, PyDict.mem. py_eval.
  rewrite get_set_eq. py_eval. by rewrite del_set_fresh.
Qed.

Lemma add_then_remove_agent_witness :
  registered "tool" (Sample.state Sample.echo) = false ∧
  (Swarm.add_agent Sample.agent_tool ;;; Swarm.remove_agent "tool")
    (Sample.state Sample.echo)
  = (Ok true, Sample.state Sample.echo).
Proof.
  split; [reflexivity|].
  apply (add_then_remove_agent (Sample.state Sample.echo) Sample.agent_tool).
  reflexivity.
Defined.

(** ** The context store *)



(** ** Statistics and the history *)

(** X5. [get_stats] never changes the state and reports as many agents as
    it lists names.  After [add_message m] it reports one more message
    and the timestamp of [m] as last activity; after [clear_history] it
    reports no message and no last activity; in both cases the agent and
    context counts are the ones reported before. *)
Theorem get_stats_follows_history (s : Swarm.state) (m : Message.t) :
  ctx_ok s = true →
  ∃ st st_add st_clear s_add s_clear,
    Swarm.get_stats s = (Ok st, s) ∧
    Stats.total_agents st = List.length (Stats.agent_names st) ∧
    Stats.conversation_length st
      = List.length (Swarm.conversation_history (Swarm.self s)) ∧
    (Swarm.add_message m ;;; Swarm.get_stats) s = (Ok st_add, s_add) ∧
    Stats.conversation_length st_add = S (Stats.conversation_length st) ∧
    Stats.last_activity st_add = Some (Message.timestamp m) ∧
    (Swarm.clear_history ;;; Swarm.get_stats) s = (Ok st_clear, s_clear) ∧
    Stats.conversation_length st_clear = 0%nat ∧
    Stats.last_activity st_clear = None ∧
    Stats.agent_names st_add = Stats.agent_names st ∧
    Stats.agent_names st_clear = Stats.agent_names st ∧
    Stats.context_variables st_add = Stats.context_variables st ∧
    Stats.context_variables st_clear = Stats.context_variables st.
Proof.
  intros Hctx. pose proof (ctx_ok_entries s Hctx) as Hx.
  destruct s as [[c ags h x] w]. cbn [Swarm.self Swarm.world
    Swarm.context_variables] in Hx.
  unfold Swarm.get_stats, Swarm.clear_history. py_eval. rewrite Hx.
  eexists _, _, _, _, _. split; [reflexivity|].
  cbn [Stats.total_agents Stats.agent_names Stats.conversation_length
       Stats.last_activity Stats.context_variables].
  split; [unfold PyDict.keys; by rewrite length_fmap|]. split; [done|].
  split; [reflexivity|].
  cbn [Stats.total_agents Stats.agent_names Stats.conversation_length
       Stats.last_activity Stats.context_variables].
  split; [rewrite length_app; cbn [List.length]; lia|].
  split; [by rewrite last_snoc|]. by repeat split.
Qed.

Lemma get_stats_follows_history_witness :
  ∃ st st_add s_add,
    Swarm.get_stats (Sample.state_five Sample.echo)
      = (Ok st, Sample.state_five Sample.echo) ∧
    Stats.conversation_length st = 5%nat ∧
    Stats.last_activity st = Some (Sample.clock 4) ∧
    (Swarm.add_message (Sample.message "user" "six" 5) ;;; Swarm.get_stats)
      (Sample.state_five Sample.echo) = (Ok st_add, s_add) ∧
    Stats.conversation_length st_add = 6%nat ∧
    Stats.last_activity st_add = Some (Sample.clock 5).
Proof.
  destruct (get_stats_follows_history (Sample.state_five Sample.echo)
              (Sample.message "user" "six" 5) eq_refl)
    as (st & st_add & _ & s_add & _ & Hst & _ & Hlen & Hadd & Hlen' & Hlast & _).
  exists st, st_add, s_add. split; [exact Hst|].
  injection Hst as <-. split; [reflexivity|]. split; [reflexivity|].
  split; [exact Hadd|]. split; [exact Hlen' | exact Hlast].
Defined.

(** X6. After [clear_history], [run] for a registered agent sends a
    request built from the new messages alone: nothing said before the
    clearing reaches the remote service, and the history afterwards
    starts with the new messages. *)
Theorem clear_history_then_run (s : Swarm.state) (agent_name : string)
    (agent : Agent.t) (messages : list Message.t)
    (cv : option (PyDict.t value)) (max_turns : Z) :
  PyDict.get agent_name (Swarm.agents (Swarm.self s)) = Some agent →
  ctx_ok s = true →
  ∃ r s',
    (Swarm.clear_history ;;; Swarm.run agent_name messages cv max_turns) s
      = (Ok r, s') ∧
    w_calls (Swarm.world s')
      = w_calls (Swarm.world s) ++ [outbound agent max_turns messages] ∧
    messages `prefix_of` Swarm.conversation_history (Swarm.self s') ∧
    (List.length (Swarm.conversation_history (Swarm.self s'))
     ≤ S (List.length messages))%nat.
Proof.
  intros Hag Hctx. unfold Swarm.clear_history, bind at 1, Swarm.set_history,
    modify.
  match goal with
  | |- context [Swarm.run _ _ _ _ ?s0] => set (s0' := s0)
  end.
  assert (Hag0 : PyDict.get agent_name (Swarm.agents (Swarm.self s0')) = Some agent)
    by exact Hag.
  assert (Hctx0 : ctx_ok s0' = true) by exact Hctx.
  destruct (run_registered_effects s0' agent_name agent messages cv max_turns
              Hag0 Hctx0) as (r & s' & Hrun & Hcalls & Hpre & _).
  destruct (run_registered_appends s0' agent_name agent messages cv max_turns
              Hag0 Hctx0) as (r' & s'' & tail & Hrun' & Hhist & _).
  rewrite Hrun in Hrun'. injection Hrun' as <- <-.
  exists r, s'. split; [exact Hrun|]. split; [exact Hcalls|].
  split; [exact Hpre|].
  revert Hhist. rewrite (run_registered s0' agent_name agent) in Hrun by done.
  destruct (w_remote _ _ _) as [[|ch chs]|e]; injection Hrun as <- <-;
    cbn [after_run Swarm.self Swarm.conversation_history s0' app];
    intros _; rewrite ?length_app; cbn [List.length]; lia.
Qed.

Lemma clear_history_then_run_witness :
  ∃ r s',
    (Swarm.clear_history ;;;
     Swarm.run "A" [Sample.message "user" "six" 5] None 10)
      (Sample.state_five Sample.echo) = (Ok r, s') ∧
    w_calls (Swarm.world s')
      = [outbound Sample.agent_A 10 [Sample.message "user" "six" 5]] ∧
    List.length (Swarm.conversation_history (Swarm.self s')) = 2%nat.
Proof.
  destruct (clear_history_then_run (Sample.state_five Sample.echo) "A"
              Sample.agent_A [Sample.message "user" "six" 5] None 10
              eq_refl eq_refl) as (r & s' & Hrun & Hcalls & _).
  exists r, s'. split; [exact Hrun|]. split; [exact Hcalls|].
  injection Hrun as <- <-. reflexivity.
Defined.

(** What [run] appends after the new messages: nothing, or the one
    assistant message of its result. *)
Lemma run_registered_answer (s : Swarm.state) (agent_name : string)
    (agent : Agent.t) (messages : list Message.t)
    (cv : option (PyDict.t value)) (max_turns : Z) :
  PyDict.get agent_name (Swarm.agents (Swarm.self s)) = Some agent →
  ctx_ok s = true →
  ∃ r s' tail,
    Swarm.run agent_name messages cv max_turns s = (Ok r, s') ∧
    Swarm.conversation_history (Swarm.self s')
      = Swarm.conversation_history (Swarm.self s) ++ messages ++ tail ∧
    Forall (λ m, Message.role m = "assistant") tail ∧
    (List.length tail ≤ 1)%nat.
Proof.
  intros Hag Hctx. rewrite (run_registered s agent_name agent) by done.
  destruct (w_remote _ _ _) as [[|c cs]|e].
  - eexists _, _, []. rewrite app_nil_r. repeat split; [done | simpl; lia].
  - eexists _, _, [_]. split; [reflexivity|]. split; [reflexivity|].
    split; [by apply Forall_singleton | done].
  - eexists _, _, []. rewrite app_nil_r. repeat split; [done | simpl; lia].
Qed.

(** ** Handoff *)

(** X7. [handoff] checks the source agent first and the target agent
    second: with an unregistered source it raises [ValueError] with the
    message [Source agent '<name>' not found], also when the target is
    missing too; with a registered source and an unregistered target it
    raises [Target agent '<name>' not found].  In both cases the state is
    the one it was given: no message is built, nothing is appended. *)
Theorem handoff_unregistered (s : Swarm.state) (from_agent to_agent : string)
    (message : string) (context : option (PyDict.t value)) :
  (registered from_agent s = false →
   Swarm.handoff from_agent to_agent message context s
   = (Raise (Exn ValueError ("Source agent '" +:+ from_agent +:+ "' not found")),
      s)) ∧
  (registered from_agent s = true →
   registered to_agent s = false →
   Swarm.handoff from_agent to_agent message context s
   = (Raise (Exn ValueError ("Target agent '" +:+ to_agent +:+ "' not found")),
      s)).
Proof.
  unfold registered, Swarm.handoff, bind, Swarm.get_self, raise.
  split.
  - intros ->. reflexivity.
  - intros -> ->. reflexivity.
Qed.

Lemma handoff_unregistered_witness :
  Swarm.handoff "ghost" "nobody" "do it" None (Sample.state Sample.echo)
  = (Raise (Exn ValueError "Source agent 'ghost' not found"),
     Sample.state Sample.echo) ∧
  Swarm.handoff "A" "nobody" "do it" None (Sample.state Sample.echo)
  = (Raise (Exn ValueError "Target agent 'nobody' not found"),
     Sample.state Sample.echo).
Proof.
  split.
  - apply (handoff_unregistered (Sample.state Sample.echo) "ghost" "nobody").
    reflexivity.
  - apply (handoff_unregistered (Sample.state Sample.echo) "A" "nobody");
      reflexivity.
Defined.

(** X8. With both agents registered, [handoff] raises nothing and calls
    the target only: one request is logged, with the instructions of the
    target as system turn and, as last turn, a user turn with the text
    [[Handoff from <source>]: <message>]; the result holds the target
    agent.  The history receives that user message and, after it, at
    most the answer. *)
Theorem handoff_invokes_target (s : Swarm.state) (from_agent to_agent : string)
    (target : Agent.t) (message : string) (context : option (PyDict.t value)) :
  registered from_agent s = true →
  PyDict.get to_agent (Swarm.agents (Swarm.self s)) = Some target →
  ctx_ok s = true →
  let text := "[Handoff from " +:+ from_agent +:+ "]: " +:+ message in
  ∃ r s' req handoff_msg tail,
    Swarm.handoff from_agent to_agent message context s = (Ok r, s') ∧
    SwarmResult.agent r = target ∧
    w_calls (Swarm.world s') = w_calls (Swarm.world s) ++ [req] ∧
    head (req_messages req) = Some (Turn "system" (Agent.instructions target)) ∧
    last (req_messages req) = Some (Turn "user" text) ∧
    Message.role handoff_msg = "user" ∧
    Message.content handoff_msg = text ∧
    Swarm.conversation_history (Swarm.self s')
      = Swarm.conversation_history (Swarm.self s) ++ [handoff_msg] ++ tail ∧
    Forall (λ m, Message.role m = "assistant") tail ∧
    (List.length tail ≤ 1)%nat.
Proof.
  intros Hfrom Hto Hctx text.
  assert (Hto' : registered to_agent s = true)
    by (unfold registered, PyDict.mem; by rewrite Hto).
  unfold Swarm.handoff, bind at 1, Swarm.get_self.
  unfold registered in Hfrom, Hto'. rewrite Hfrom, Hto'. cbn [negb].
  unfold bind at 1, Swarm.in_world at 1, Message.init, bind at 1,
    now_isoformat, ret. cbn [Swarm.world Swarm.self]. fold text.
  match goal with
  | |- context [Swarm.run to_agent [?m] context 10 ?s0] =>
      set (s0' := s0); set (msg := m)
  end.
  assert (Hag0 : PyDict.get to_agent (Swarm.agents (Swarm.self s0')) = Some target)
    by exact Hto.
  assert (Hctx0 : ctx_ok s0' = true) by exact Hctx.
  destruct (run_registered_effects s0' to_agent target [msg] context 10
              Hag0 Hctx0) as (r & s' & Hrun & Hcalls & _ & _ & _ & Hagent & _).
  destruct (run_registered_answer s0' to_agent target [msg] context 10
              Hag0 Hctx0) as (r' & s'' & tail & Hrun' & Hhist & Htail & Hlen).
  rewrite Hrun in Hrun'. injection Hrun' as <- <-.
  exists r, s', (outbound target 10
                   (Swarm.conversation_history (Swarm.self s) ++ [msg])),
    msg, tail.
  split; [exact Hrun|]. split; [exact Hagent|]. split; [exact Hcalls|].
  split; [done|]. split.
  { unfold outbound, Swarm.api_messages. cbn [req_messages].
    by rewrite last_cons, fmap_last, last_snapshot_snoc. }
  split; [done|]. split; [done|]. split; [exact Hhist|]. by split.
Qed.

Lemma handoff_invokes_target_witness :
  ∃ r s' req,
    Swarm.handoff "A" "B" "review this" None (Sample.state Sample.echo)
      = (Ok r, s') ∧
    SwarmResult.agent r = Sample.agent_B ∧
    w_calls (Swarm.world s') = [req] ∧
    req_messages req
      = [Turn "system" "You are B.";
         Turn "user" "[Handoff from A]: review this"].
Proof.
  destruct (handoff_invokes_target (Sample.state Sample.echo) "A" "B"
              Sample.agent_B "review this" None eq_refl eq_refl eq_refl)
    as (r & s' & req & hm & tail & Hrun & Hag & Hcalls & _).
  exists r, s', req. split; [exact Hrun|]. split; [exact Hag|].
  split; [exact Hcalls|].
  injection Hrun as <- <-. injection Hcalls as <-. reflexivity.
Defined.

(** ** More on [run] *)

(** X9. When the remote service answers with at least one choice, [run]
    uses the first choice only: the result holds one assistant message
    with that content and the agent's name, stamped with the next clock
    reading, and the history is the old history, the new messages and
    that same message, in this order.  One request is logged. *)
Theorem run_completion_appended (s : Swarm.state) (agent_name : string)
    (agent : Agent.t) (messages : list Message.t)
    (cv : option (PyDict.t value)) (max_turns : Z)
    (c : string) (others : list string) :
  PyDict.get agent_name (Swarm.agents (Swarm.self s)) = Some agent →
  ctx_ok s = true →
  let w := Swarm.world s in
  let hist := Swarm.conversation_history (Swarm.self s) ++ messages in
  w_remote w (w_calls w) (outbound agent max_turns hist)
    = Completion (c :: others) →
  ∃ r s',
    let m := Message.mk "assistant" c (Some (Agent.name agent)) None
                        (w_now w (w_ticks w)) in
    Swarm.run agent_name messages cv max_turns s = (Ok r, s') ∧
    SwarmResult.messages r = [m] ∧
    SwarmResult.agent r = agent ∧
    Swarm.conversation_history (Swarm.self s') = hist ++ [m] ∧
    w_calls (Swarm.world s') = w_calls w ++ [outbound agent max_turns hist] ∧
    w_ticks (Swarm.world s') = S (w_ticks w).
Proof.
  intros Hag Hctx w hist Hreply.
  rewrite (run_registered s agent_name agent) by done.
  fold w hist. rewrite Hreply. eexists _, _. cbv zeta.
  split; [reflexivity|]. cbn [after_run SwarmResult.messages SwarmResult.agent
    Swarm.self Swarm.world Swarm.conversation_history w_calls w_ticks].
  repeat split. by rewrite app_assoc.
Qed.

Lemma run_completion_appended_witness :
  ∃ r s',
    Swarm.run "A" [Sample.message "user" "hi" 0] None 10
              (Sample.state (Sample.saying "hello")) = (Ok r, s') ∧
    SwarmResult.messages r
      = [Message.mk "assistant" "hello" (Some "A") None (Sample.clock 0)] ∧
    Swarm.conversation_history (Swarm.self s')
      = [Sample.message "user" "hi" 0;
         Message.mk "assistant" "hello" (Some "A") None (Sample.clock 0)].
Proof.
  destruct (run_completion_appended (Sample.state (Sample.saying "hello")) "A"
              Sample.agent_A [Sample.message "user" "hi" 0] None 10 "hello" []
              eq_refl eq_refl eq_refl)
    as (r & s' & Hrun & Hmsgs & _ & Hhist & _).
  exists r, s'. split; [exact Hrun|]. split; [exact Hmsgs | exact Hhist].
Defined.

(** X10. A response without any choice is handled like a remote failure:
    [response.choices[0]] raises [IndexError] inside the [try], so [run]
    raises nothing and returns a result whose message reads
    [Error: list index out of range]; the history gets the new messages
    and nothing more. *)
Theorem run_empty_choices_degraded (s : Swarm.state) (agent_name : string)
    (agent : Agent.t) (messages : list Message.t)
    (cv : option (PyDict.t value)) (max_turns : Z) :
  PyDict.get agent_name (Swarm.agents (Swarm.self s)) = Some agent →
  ctx_ok s = true →
  let w := Swarm.world s in
  let hist := Swarm.conversation_history (Swarm.self s) ++ messages in
  w_remote w (w_calls w) (outbound agent max_turns hist) = Completion [] →
  ∃ r s',
    Swarm.run agent_name messages cv max_turns s = (Ok r, s') ∧
    SwarmResult.messages r
      = [Message.mk "assistant" "Error: list index out of range"
                    (Some (Agent.name agent)) None (w_now w (w_ticks w))] ∧
    Swarm.conversation_history (Swarm.self s') = hist.
Proof.
  intros Hag Hctx w hist Hreply.
  rewrite (run_registered s agent_name agent) by done.
  fold w hist. rewrite Hreply. eexists _, _. by repeat split.
Qed.

Lemma run_empty_choices_witness :
  ∃ r s',
    Swarm.run "A" [Sample.message "user" "hi" 0] None 10
              (Sample.state (λ _ _, Completion [])) = (Ok r, s') ∧
    SwarmResult.messages r
      = [Message.mk "assistant" "Error: list index out of range" (Some "A")
                    None (Sample.clock 0)] ∧
    Swarm.conversation_history (Swarm.self s') = [Sample.message "user" "hi" 0].
Proof.
  apply (run_empty_choices_degraded (Sample.state (λ _ _, Completion [])) "A"
           Sample.agent_A [Sample.message "user" "hi" 0] None 10);
    reflexivity.
Defined.

(** X11. The context overrides given to [run] are merged into the context
    store before the call and stay there: afterwards the store and the
    dictionary of the result both hold the old entries updated with the
    overrides, so that a key of the overrides reads with the value given
    and any other key with its old value.  Without overrides ([None] or
    an empty dictionary) the entries are unchanged. *)
Theorem run_merges_context_overrides (s : Swarm.state) (agent_name : string)
    (agent : Agent.t) (messages : list Message.t)
    (cv : option (PyDict.t value)) (max_turns : Z) :
  PyDict.get agent_name (Swarm.agents (Swarm.self s)) = Some agent →
  ctx_ok s = true →
  ∃ r s' merged,
    Swarm.run agent_name messages cv max_turns s = (Ok r, s') ∧
    ctx_entries s' = merged ∧
    w_heap (Swarm.world s') !! SwarmResult.context_variables r
      = Some (ODict merged) ∧
    (∀ d key, cv = Some d → NoDup (PyDict.keys d) →
       PyDict.get key merged
       = match PyDict.get key d with
         | Some v => Some v
         | None => PyDict.get key (ctx_entries s)
         end) ∧
    (truthy_dict cv = false → merged = ctx_entries s).
Proof.
  intros Hag Hctx.
  destruct (run_registered_context s agent_name agent messages cv max_turns
              Hag Hctx) as (r & s' & Hrun & Hself & Hrc & Hheap).
  pose proof (ctx_ok_entries s Hctx) as Hx. apply lookup_lt_Some in Hx as Hlen.
  exists r, s', (PyDict.update (ctx_entries s) (default PyDict.empty cv)).
  split; [exact Hrun|]. split.
  { unfold ctx_entries at 1. rewrite Hself, Hheap.
    rewrite lookup_app_l by (by rewrite length_insert).
    by rewrite list_lookup_insert_eq. }
  split.
  { rewrite Hrc, Hheap. apply list_lookup_middle. by rewrite length_insert. }
  split.
  - intros d key -> Hnd. cbn [default]. unfold id. by apply get_update.
  - intros Hcv. by apply truthy_dict_false_update.
Qed.

Lemma run_merges_context_overrides_witness :
  ∃ r s' merged,
    Swarm.run "A" [] (Some [("n", VInt 5); ("new", VStr "x")]) 10
              (Sample.state_nested Sample.echo) = (Ok r, s') ∧
    ctx_entries s' = merged ∧
    merged = [("todo", VRef 1); ("n", VInt 5); ("new", VStr "x")] ∧
    w_heap (Swarm.world s') !! SwarmResult.context_variables r
      = Some (ODict merged).
Proof.
  destruct (run_merges_context_overrides (Sample.state_nested Sample.echo) "A"
              Sample.agent_A [] (Some [("n", VInt 5); ("new", VStr "x")]) 10
              eq_refl eq_refl) as (r & s' & merged & Hrun & Hctx & Hres & _).
  exists r, s', merged. split; [exact Hrun|]. split; [exact Hctx|].
  split; [|exact Hres].
  rewrite <- Hctx. injection Hrun as <- <-. reflexivity.
Defined.

(** X12. A negative [max_turns] does not fail: the slice
    [history[-max_turns:]] then starts at index [|max_turns|], so the
    request carries the system turn followed by the stored history
    without its first [|max_turns|] messages. *)
Theorem run_negative_max_turns (s : Swarm.state) (agent_name : string)
    (agent : Agent.t) (messages : list Message.t)
    (cv : option (PyDict.t value)) (max_turns : Z) :
  PyDict.get agent_name (Swarm.agents (Swarm.self s)) = Some agent →
  ctx_ok s = true →
  max_turns < 0 →
  let hist := Swarm.conversation_history (Swarm.self s) ++ messages in
  ∃ r s' req,
    Swarm.run agent_name messages cv max_turns s = (Ok r, s') ∧
    last (w_calls (Swarm.world s')) = Some req ∧
    req_messages req
      = Turn "system" (Agent.instructions agent)
        :: (Swarm.turn_of <$> drop (Z.to_nat (- max_turns)) hist).
Proof.
  intros Hag Hctx Hneg hist.
  destruct (run_registered_effects s agent_name agent messages cv max_turns
              Hag Hctx) as (r & s' & Hrun & Hcalls & _).
  exists r, s', (outbound agent max_turns hist). split; [exact Hrun|]. split.
  { rewrite Hcalls. apply last_snoc. }
  unfold outbound, Swarm.api_messages, Swarm.snapshot, slice_from.
  cbn [req_messages]. destruct (Z.ltb_spec (- max_turns) 0); [lia|].
  do 2 f_equal. destruct (decide (- max_turns ≤ Z.of_nat (List.length hist))).
  - f_equal. lia.
  - rewrite !drop_ge by lia. done.
Qed.

Lemma run_negative_max_turns_witness :
  ∃ r s' req,
    Swarm.run "A" [] None (-3) (Sample.state_five Sample.echo) = (Ok r, s') ∧
    last (w_calls (Swarm.world s')) = Some req ∧
    req_messages req
      = [Turn "system" "You are A."; Turn "assistant" "four"; Turn "user" "five"].
Proof.
  apply (run_negative_max_turns (Sample.state_five Sample.echo) "A"
           Sample.agent_A [] None (-3)); reflexivity.
Defined.

(** ** A sequence that names an unregistered agent *)

Lemma multi_agent_loop_stops (pre : list string) :
  ∀ (s : Swarm.state) (bad : string) (post : list string) (current : string)
    (acc : list SwarmResult.t),
    ctx_ok s = true →
    forallb (λ n, registered n s) pre = true →
    registered bad s = false →
    ∃ s' requests,
      Swarm.multi_agent_loop (pre ++ bad :: post) current acc s
        = (Raise (AgentNotFound bad), s') ∧
      w_calls (Swarm.world s') = w_calls (Swarm.world s) ++ requests ∧
      List.length requests = List.length pre ∧
      Swarm.conversation_history (Swarm.self s) `prefix_of`
        Swarm.conversation_history (Swarm.self s') ∧
      (List.length pre
       ≤ List.length (Swarm.conversation_history (Swarm.self s'))
         - List.length (Swarm.conversation_history (Swarm.self s)))%nat.
Proof.
  induction pre as [|n pre IH]; intros s bad post current acc Hctx Hpre Hbad.
  - cbn [app Swarm.multi_agent_loop]. unfold bind at 1.
    unfold Swarm.in_world at 1, Message.init, bind at 1, now_isoformat, ret.
    cbn [Swarm.world Swarm.self]. unfold bind at 1.
    match goal with
    | |- context [Swarm.run bad ?ms None 10 ?s0] => set (s0' := s0)
    end.
    rewrite run_unregistered by (by apply not_registered_get).
    exists s0', []. rewrite app_nil_r. split; [done|]. split; [done|].
    split; [done|]. split; [done | simpl; lia].
  - cbn [forallb] in Hpre. apply andb_prop in Hpre as [Hn Hpre].
    apply registered_get in Hn as [agent Hag].
    cbn [app Swarm.multi_agent_loop]. unfold bind at 1.
    unfold Swarm.in_world at 1, Message.init, bind at 1, now_isoformat, ret.
    cbn [Swarm.world Swarm.self]. unfold bind at 1.
    match goal with
    | |- context [Swarm.run n [?m] None 10 ?s0] =>
        set (s0' := s0); set (msg := m)
    end.
    assert (Hctx0 : ctx_ok s0' = true) by exact Hctx.
    assert (Hag0 : PyDict.get n (Swarm.agents (Swarm.self s0')) = Some agent)
      by exact Hag.
    destruct (run_registered_effects s0' n agent [msg] None 10 Hag0 Hctx0)
      as (r & s1 & Hrun & Hcalls & Hprefix & Hags & Hctx1 & _).
    change (Swarm.agents (Swarm.self s0')) with (Swarm.agents (Swarm.self s))
      in Hags.
    rewrite Hrun.
    destruct (IH s1 bad post
                (match last (SwarmResult.messages r) with
                 | Some m => Message.content m
                 | None => current
                 end) (acc ++ [r]) Hctx1)
      as (s' & requests & Hloop & Hcalls' & Hlen & Hprefix' & Hgrow).
    { unfold registered in *. by rewrite Hags. }
    { unfold registered in *. by rewrite Hags. }
    exists s', (outbound agent 10
                  (Swarm.conversation_history (Swarm.self s) ++ [msg])
                :: requests).
    split; [exact Hloop|]. split.
    { rewrite Hcalls', Hcalls. by rewrite <- app_assoc. }
    split; [cbn [List.length]; by rewrite Hlen|].
    cbn [Swarm.conversation_history Swarm.self s0'] in Hprefix.
    assert (Hp : Swarm.conversation_history (Swarm.self s) `prefix_of`
                 Swarm.conversation_history (Swarm.self s1)).
    { etrans; [|exact Hprefix]. by apply prefix_app_r. }
    split; [by etrans|].
    apply prefix_length in Hprefix. rewrite length_app in Hprefix.
    cbn [List.length] in *. apply prefix_length in Hprefix'. lia.
Qed.

(** X13. When the sequence names an unregistered agent, [multi_agent_run]
    raises the agent-not-found error for the first such name, but only
    after the agents before it have run: one request per earlier agent
    has been sent, their messages stay in the history, and the results
    obtained so far are not returned. *)
Theorem multi_agent_run_stops_at_unregistered (s : Swarm.state)
    (pre : list string) (bad : string) (post : list string) (text : string)
    (cv : option (PyDict.t value)) :
  ctx_ok s = true →
  forallb (λ n, registered n s) pre = true →
  registered bad s = false →
  ∃ s' requests,
    Swarm.multi_agent_run (pre ++ bad :: post) text cv s
      = (Raise (AgentNotFound bad), s') ∧
    w_calls (Swarm.world s') = w_calls (Swarm.world s) ++ requests ∧
    List.length requests = List.length pre ∧
    Swarm.conversation_history (Swarm.self s) `prefix_of`
      Swarm.conversation_history (Swarm.self s') ∧
    (List.length (Swarm.conversation_history (Swarm.self s)) + List.length pre
     ≤ List.length (Swarm.conversation_history (Swarm.self s')))%nat.
Proof.
  intros Hctx Hpre Hbad.
  unfold Swarm.multi_agent_run, bind at 1. rewrite merge_context by done.
  match goal with
  | |- context [Swarm.multi_agent_loop _ text [] ?s0] => set (s0' := s0)
  end.
  assert (Hctx0 : ctx_ok s0' = true).
  { pose proof (ctx_ok_entries s Hctx) as Hx. apply lookup_lt_Some in Hx.
    unfold ctx_ok, s0', set_heap. cbn [Swarm.self Swarm.world w_heap].
    by rewrite list_lookup_insert_eq. }
  destruct (multi_agent_loop_stops pre s0' bad post text [] Hctx0 Hpre Hbad)
    as (s' & requests & Hloop & Hcalls & Hlen & Hprefix & Hgrow).
  exists s', requests. split; [exact Hloop|]. split; [exact Hcalls|].
  split; [exact Hlen|]. split; [exact Hprefix|].
  apply prefix_length in Hprefix.
  cbn [Swarm.conversation_history Swarm.self s0'] in *. lia.
Qed.

Lemma multi_agent_run_stops_witness :
  ∃ s' q,
    Swarm.multi_agent_run ["A"; "ghost"; "B"] "start" None
                          (Sample.state Sample.echo)
      = (Raise (AgentNotFound "ghost"), s') ∧
    w_calls (Swarm.world s') = [q] ∧
    Message.content <$> Swarm.conversation_history (Swarm.self s')
      = ["start"; "start"].
Proof.
  destruct (multi_agent_run_stops_at_unregistered (Sample.state Sample.echo)
              ["A"] "ghost" ["B"] "start" None eq_refl eq_refl eq_refl)
    as (s' & requests & Hrun & Hcalls & Hlen & _).
  destruct requests as [|q [|? ?]]; try discriminate Hlen.
  exists s', q. split; [exact Hrun|]. split; [exact Hcalls|].
  cbn [app] in Hrun. injection Hrun as <-. reflexivity.
Defined.

(** ** Saving plain data *)









(** ** Loading a saved document *)

Lemma set_fresh {V} (d : PyDict.t V) (k : string) (v : V) :
  PyDict.get k d = None → PyDict.set k v d = d ++ [(k, v)].
Proof.
  induction d as [|[k0 v0] d IH]; [done|]. cbn [PyDict.get PyDict.set].
  destruct (decide (k0 = k)); [done|]. intros Hget. by rewrite IH.
Qed.

Lemma update_fresh {V} (l acc : PyDict.t V) :
  NoDup (PyDict.keys (acc ++ l)) → PyDict.update acc l = acc ++ l.
Proof.
  unfold PyDict.update. revert acc.
  induction l as [|[k v] l IH]; intros acc Hnd; [by rewrite app_nil_r|].
  cbn [fold_left fst snd].
  assert (Hk : PyDict.get k acc = None).
  { apply get_None_keys. unfold PyDict.keys in *.
    rewrite fmap_app, fmap_cons in Hnd. apply NoDup_app in Hnd as (_ & Hd & _).
    intros Hin. apply (Hd k Hin). by left. }
  rewrite set_fresh by done. rewrite IH; [by rewrite <- app_assoc|].
  by rewrite <- app_assoc.
Qed.

Lemma of_pairs_NoDup {V} (l : PyDict.t V) :
  NoDup (PyDict.keys l) → PyDict.of_pairs l = l.
Proof. intros Hnd. unfold PyDict.of_pairs. by rewrite update_fresh. Qed.

Lemma from_kwargs_agent_json (a : Agent.t) :
  Agent.functions a = [] → Agent.from_kwargs (agent_json a) = Ok a.
Proof. destruct a as [n i fs m t mt]. cbn [Agent.functions]. by intros ->. Qed.




(** The agents loop of [load_state] on the objects of callable-free
    agents: each is rebuilt and stored under its key. *)
Lemma load_agents_plain (l : list (string * Agent.t)) :
  ∀ s : Swarm.state,
    Forall (λ kv, Agent.functions kv.2 = []) l →
    for_each (λ kv : string * json,
                agent <- lift_outcome (Agent.from_kwargs kv.2) ;;
                me <- Swarm.get_self ;;
                Swarm.set_agents (PyDict.set kv.1 agent (Swarm.agents me)))
             ((λ kv, (kv.1, agent_json kv.2)) <$> l) s
    = (Ok tt,
       Swarm.mkState
         (Swarm.mk (Swarm.client (Swarm.self s))
                   (PyDict.update (Swarm.agents (Swarm.self s)) l)
                   (Swarm.conversation_history (Swarm.self s))
                   (Swarm.context_variables (Swarm.self s)))
         (Swarm.world s)).
Proof.
  induction l as [|[k a] l IH]; intros [[c ags h x] w] Hl.
  - done.
  - apply Forall_cons in Hl as [Ha Hl]. rewrite fmap_cons.
    cbn [for_each fst snd]. unfold bind at 1. unfold bind at 1, lift_outcome at 1.
    rewrite from_kwargs_agent_json by done. py_eval. by rewrite IH.
Qed.





(** X15. [load_state] on a file that does not exist raises
    [FileNotFoundError], and on a file that holds no JSON document it
    raises the decoder's error; in both cases the swarm keeps its
    registry, history and context: nothing has been replaced yet. *)
Theorem load_state_unreadable (s : Swarm.state) (filename : string) :
  (w_fs (Swarm.world s) !! filename = None →
   ∃ e, exn_cls e = FileNotFoundError ∧
        Swarm.load_state filename s = (Raise e, s)) ∧
  (w_fs (Swarm.world s) !! filename = Some FMalformed →
   ∃ e, exn_cls e = JSONDecodeError ∧
        Swarm.load_state filename s = (Raise e, s)).
Proof.
  split.
  - intros Hfile. eexists. split; [|unfold Swarm.load_state, Swarm.json_load,
      bind at 1, Swarm.in_world at 1; rewrite Hfile; by destruct s]. done.
  - intros Hfile. eexists. split; [|by apply load_state_malformed]. done.
Qed.

Lemma load_state_unreadable_witness :
  ∃ e, exn_cls e = FileNotFoundError ∧
       Swarm.load_state "nowhere.json" (Sample.state Sample.echo)
       = (Raise e, Sample.state Sample.echo).
Proof.
  apply (load_state_unreadable (Sample.state Sample.echo) "nowhere.json").
  reflexivity.
Defined.



(** ** Loads that fail half way *)

Lemma for_each_app {S A} (body : A → M S unit) (xs ys : list A) (s : S) :
  for_each body (xs ++ ys) s = (for_each body xs ;;; for_each body ys) s.
Proof.
  revert s. induction xs as [|x xs IH]; intros s; [done|].
  cbn [app for_each]. unfold bind.
  destruct (body x s) as [[[]|e] s1]; [|done]. rewrite IH. reflexivity.
Qed.

Lemma elem_of_keys_update {V} (l d : PyDict.t V) (n : string) :
  n ∈ PyDict.keys (PyDict.update d l) ↔ n ∈ PyDict.keys d ∨ n ∈ l.*1.
Proof.
  unfold PyDict.update. revert d. induction l as [|[k v] l IH]; intros d.
  - cbn. rewrite elem_of_nil. tauto.
  - cbn [fold_left fst snd]. rewrite IH, elem_of_keys_set, fmap_cons, elem_of_cons.
    cbn [fst]. tauto.
Qed.

(** A keyword that is not a field of [Agent] makes the constructor raise
    [TypeError] before anything else is looked at. *)
Lemma from_kwargs_unexpected (members : list (string * json)) (k0 : string) :
  k0 ∈ members.*1 →
  k0 ∉ Agent.fields →
  ∃ k, (k ∉ Agent.fields) ∧
       Agent.from_kwargs (JObj members)
       = Raise (Exn TypeError
                  ("got an unexpected keyword argument '" +:+ k +:+ "'")).
Proof.
  intros Hin Hno. cbn [Agent.from_kwargs].
  destruct (filter (λ k, k ∉ Agent.fields)
                   (PyDict.keys (PyDict.of_pairs members))) as [|k ks] eqn:Hf.
  - exfalso. eapply (filter_nil_not_elem_of _ _ k0); [exact Hf | exact Hno |].
    apply elem_of_keys_update. by right.
  - exists k. split; [|done].
    assert (Hk : k ∈ filter (λ k, k ∉ Agent.fields)
                        (PyDict.keys (PyDict.of_pairs members)))
      by (rewrite Hf; by left).
    by apply list_elem_of_filter in Hk as [? _].
Qed.

(** X17. [load_state] is not atomic.  On a document whose [agents] are
    well formed but which has no [conversation_history], it raises
    [KeyError] only after it has replaced the registry by the agents of
    the document and emptied the history: what the swarm held before is
    lost although the load failed.  The context is left alone. *)
Theorem load_state_missing_history (s : Swarm.state) (filename : string)
    (members : list (string * json)) (l : list (string * Agent.t)) :
  w_fs (Swarm.world s) !! filename = Some (FDocument (JObj members)) →
  PyDict.get "agents" (PyDict.of_pairs members)
    = Some (JObj ((λ kv, (kv.1, agent_json kv.2)) <$> l)) →
  PyDict.get "conversation_history" (PyDict.of_pairs members) = None →
  Forall (λ kv, Agent.functions kv.2 = []) l →
  NoDup (PyDict.keys l) →
  ∃ s',
    Swarm.load_state filename s
      = (Raise (Exn KeyError "'conversation_history'"), s') ∧
    Swarm.agents (Swarm.self s') = l ∧
    Swarm.conversation_history (Swarm.self s') = [] ∧
    Swarm.context_variables (Swarm.self s')
      = Swarm.context_variables (Swarm.self s) ∧
    Swarm.world s' = Swarm.world s.
Proof.
  intros Hfile Hagents Hhist Hl Hnd.
  unfold Swarm.load_state. unfold bind at 1.
  unfold Swarm.in_world at 1, Swarm.json_load. rewrite Hfile.
  unfold bind at 1. unfold Swarm.set_agents at 1, modify at 1.
  unfold bind at 1, lift_outcome at 1. cbn [subscript]. rewrite Hagents.
  cbn [items]. rewrite of_pairs_NoDup.
  2:{ unfold PyDict.keys. rewrite <- list_fmap_compose. exact Hnd. }
  unfold bind at 1. rewrite load_agents_plain by done.
  cbn [Swarm.self Swarm.world Swarm.client Swarm.agents
       Swarm.conversation_history Swarm.context_variables].
  change (PyDict.update PyDict.empty l) with (PyDict.of_pairs l).
  rewrite (of_pairs_NoDup l) by done.
  unfold bind at 1. unfold Swarm.set_history at 1, modify at 1.
  cbn [Swarm.self Swarm.world Swarm.client Swarm.agents
       Swarm.conversation_history Swarm.context_variables].
  unfold bind at 1, lift_outcome at 1. rewrite Hhist.
  eexists. split; [reflexivity|]. by destruct s as [me []].
Qed.

Lemma load_state_missing_history_witness :
  ∃ s',
    Swarm.load_state "swarm_state.json" (Sample.state_tool_saved Sample.echo)
      = (Raise (Exn KeyError "'conversation_history'"), s') ∧
    Swarm.agents (Swarm.self s') = [] ∧
    Swarm.conversation_history (Swarm.self s') = [].
Proof.
  destruct (load_state_missing_history (Sample.state_tool_saved Sample.echo)
              "swarm_state.json" [("agents", JObj [])] [])
    as (s' & Hload & Hags & Hhist & _).
  - reflexivity.
  - reflexivity.
  - reflexivity.
  - constructor.
  - constructor.
  - exists s'. split; [exact Hload|]. split; [exact Hags | exact Hhist].
Defined.

(** X18. An agent entry with an unknown field is not ignored: the
    constructor raises [TypeError] for an unexpected keyword.  The
    registry then holds the agents of the document that come before the
    offending entry and none of those the swarm had; history and context
    are the old ones, since the failure comes before they are touched. *)
Theorem load_state_unknown_agent_field (s : Swarm.state) (filename : string)
    (members : list (string * json)) (good : list (string * Agent.t))
    (n : string) (fields : list (string * json))
    (rest : list (string * json)) (k0 : string) :
  w_fs (Swarm.world s) !! filename = Some (FDocument (JObj members)) →
  PyDict.get "agents" (PyDict.of_pairs members)
    = Some (JObj (((λ kv, (kv.1, agent_json kv.2)) <$> good)
                  ++ (n, JObj fields) :: rest)) →
  NoDup (PyDict.keys good ++ n :: rest.*1) →
  Forall (λ kv, Agent.functions kv.2 = []) good →
  k0 ∈ fields.*1 →
  k0 ∉ Agent.fields →
  ∃ e s',
    exn_cls e = TypeError ∧
    Swarm.load_state filename s = (Raise e, s') ∧
    Swarm.agents (Swarm.self s') = good ∧
    Swarm.conversation_history (Swarm.self s')
      = Swarm.conversation_history (Swarm.self s) ∧
    Swarm.context_variables (Swarm.self s')
      = Swarm.context_variables (Swarm.self s) ∧
    Swarm.world s' = Swarm.world s.
Proof.
  intros Hfile Hagents Hnd Hgood Hin Hno.
  destruct (from_kwargs_unexpected fields k0 Hin Hno) as (k & Hk & Hraise).
  assert (Hnd_good : NoDup (PyDict.keys good)) by (by apply NoDup_app in Hnd as [? _]).
  eexists. unfold Swarm.load_state. unfold bind at 1.
  unfold Swarm.in_world at 1, Swarm.json_load. rewrite Hfile.
  unfold bind at 1. unfold Swarm.set_agents at 1, modify at 1.
  unfold bind at 1, lift_outcome at 1. cbn [subscript]. rewrite Hagents.
  cbn [items]. rewrite of_pairs_NoDup.
  2:{ unfold PyDict.keys in *. rewrite fmap_app, fmap_cons, <- list_fmap_compose.
      exact Hnd. }
  unfold bind at 1. rewrite for_each_app. unfold bind at 1.
  rewrite load_agents_plain by done.
  cbn [Swarm.self Swarm.world Swarm.client Swarm.agents
       Swarm.conversation_history Swarm.context_variables].
  change (PyDict.update PyDict.empty good) with (PyDict.of_pairs good).
  rewrite (of_pairs_NoDup good) by done.
  cbn [for_each fst snd]. unfold bind at 1. unfold bind at 1, lift_outcome at 1.
  rewrite Hraise.
  eexists. split; [|split; [reflexivity|by destruct s as [me []]]]. done.
Qed.

Lemma load_state_unknown_agent_field_witness :
  ∃ e s',
    exn_cls e = TypeError ∧
    Swarm.load_state "swarm_state.json" Sample.state_extra_field
      = (Raise e, s') ∧
    Swarm.agents (Swarm.self s') = [("B", Sample.agent_B)] ∧
    Swarm.conversation_history (Swarm.self s') = [Sample.message "user" "old" 0].
Proof.
  destruct (load_state_unknown_agent_field Sample.state_extra_field
              "swarm_state.json"
              [("agents",
                JObj [("B", agent_json Sample.agent_B);
                      ("C", JObj [("name", JStr "C"); ("instructions", JStr "c");
                                  ("role", JStr "helper")])])]
              [("B", Sample.agent_B)] "C"
              [("name", JStr "C"); ("instructions", JStr "c");
               ("role", JStr "helper")] [] "role")
    as (e & s' & He & Hload & Hags & Hhist & _).
  - reflexivity.
  - reflexivity.
  - apply (bool_decide_unpack _). reflexivity.
  - by repeat constructor.
  - apply (bool_decide_unpack _). reflexivity.
  - apply (bool_decide_unpack _). reflexivity.
  - exists e, s'. split; [exact He|]. split; [exact Hload|].
    split; [exact Hags | exact Hhist].
Defined.

(** ** What an invocation never does *)

(** The part of a state an invocation must leave alone, and the way the
    history may change. *)
Lemma run_keeps (s s' : Swarm.state) (o : outcome SwarmResult.t)
    (agent_name : string) (messages : list Message.t)
    (cv : option (PyDict.t value)) (max_turns : Z) :
  ctx_ok s = true →
  Swarm.run agent_name messages cv max_turns s = (o, s') →
  Swarm.conversation_history (Swarm.self s) `prefix_of`
    Swarm.conversation_history (Swarm.self s') ∧
  Swarm.agents (Swarm.self s') = Swarm.agents (Swarm.self s) ∧
  Swarm.context_variables (Swarm.self s')
    = Swarm.context_variables (Swarm.self s) ∧
  w_fs (Swarm.world s') = w_fs (Swarm.world s) ∧
  ctx_ok s' = true.
Proof.
  intros Hctx Hrun. destruct (registered agent_name s) eqn:Hreg.
  - apply registered_get in Hreg as [agent Hag].
    destruct (run_registered_effects s agent_name agent messages cv max_turns
                Hag Hctx) as (r & s1 & Hrun1 & _ & Hpre & Hags & Hctx1 & _).
    destruct (run_registered_context s agent_name agent messages cv max_turns
                Hag Hctx) as (r2 & s2 & Hrun2 & Hself & _).
    rewrite Hrun in Hrun1, Hrun2. injection Hrun1 as -> ->.
    injection Hrun2 as _ <-.
    split; [etrans; [|exact Hpre]; by apply prefix_app_r|].
    split; [done|]. split; [done|]. split; [|done].
    rewrite (run_registered s agent_name agent) in Hrun by done.
    by destruct (w_remote _ _ _) as [[|c cs]|e]; injection Hrun as _ <-.
  - rewrite run_unregistered in Hrun by (by apply not_registered_get).
    injection Hrun as _ <-. by repeat split.
Qed.

Lemma multi_agent_loop_keeps (names : list string) :
  ∀ (s s' : Swarm.state) (o : outcome (list SwarmResult.t)) (current : string)
    (acc : list SwarmResult.t),
    ctx_ok s = true →
    Swarm.multi_agent_loop names current acc s = (o, s') →
    Swarm.conversation_history (Swarm.self s) `prefix_of`
      Swarm.conversation_history (Swarm.self s') ∧
    Swarm.agents (Swarm.self s') = Swarm.agents (Swarm.self s) ∧
    Swarm.context_variables (Swarm.self s')
      = Swarm.context_variables (Swarm.self s) ∧
    w_fs (Swarm.world s') = w_fs (Swarm.world s).
Proof.
  induction names as [|n rest IH]; intros s s' o current acc Hctx Hloop.
  - injection Hloop as _ <-. by repeat split.
  - cbn [Swarm.multi_agent_loop] in Hloop. unfold bind at 1 in Hloop.
    unfold Swarm.in_world at 1, Message.init, bind at 1, now_isoformat, ret
      in Hloop.
    cbn [Swarm.world Swarm.self] in Hloop. unfold bind at 1 in Hloop.
    match type of Hloop with
    | context [Swarm.run n ?ms None 10 ?s0] =>
        set (s0' := s0) in *; set (ms' := ms) in *
    end.
    assert (Hctx0 : ctx_ok s0' = true) by exact Hctx.
    destruct (Swarm.run n ms' None 10 s0') as [[r|e] s1] eqn:Hstep;
      apply run_keeps in Hstep as (Hpre & Hags & Hx & Hfs & Hctx1); try done.
    + apply IH in Hloop as (Hpre' & Hags' & Hx' & Hfs'); [|done].
      split; [by etrans|]. split; [by rewrite Hags'|].
      split; [by rewrite Hx' | by rewrite Hfs'].
    + injection Hloop as _ <-. by repeat split.
Qed.

(** X19. Whatever they return or raise, [run], [handoff] and
    [multi_agent_run] only ever extend the history (the stored messages
    stay, in their order, at the front), and they never change the
    registry, the identity of the context dictionary or any file. *)
Theorem invocations_only_extend_history (s : Swarm.state) :
  ctx_ok s = true →
  let kept (s' : Swarm.state) :=
    Swarm.conversation_history (Swarm.self s) `prefix_of`
      Swarm.conversation_history (Swarm.self s') ∧
    Swarm.agents (Swarm.self s') = Swarm.agents (Swarm.self s) ∧
    Swarm.context_variables (Swarm.self s')
      = Swarm.context_variables (Swarm.self s) ∧
    w_fs (Swarm.world s') = w_fs (Swarm.world s) in
  (∀ agent_name messages cv max_turns o s',
     Swarm.run agent_name messages cv max_turns s = (o, s') → kept s') ∧
  (∀ from_agent to_agent message context o s',
     Swarm.handoff from_agent to_agent message context s = (o, s') → kept s') ∧
  (∀ agent_sequence text cv o s',
     Swarm.multi_agent_run agent_sequence text cv s = (o, s') → kept s').
Proof.
  intros Hctx kept. unfold kept. split; [|split].
  - intros agent_name messages cv max_turns o s' Hrun.
    apply run_keeps in Hrun as (? & ? & ? & ? & _); done.
  - intros from_agent to_agent message context o s' Hrun.
    unfold Swarm.handoff, bind at 1, Swarm.get_self in Hrun.
    destruct (negb (PyDict.mem from_agent _));
      [injection Hrun as _ <-; by repeat split|].
    destruct (negb (PyDict.mem to_agent _));
      [injection Hrun as _ <-; by repeat split|].
    unfold bind at 1, Swarm.in_world at 1, Message.init, bind at 1,
      now_isoformat, ret in Hrun. cbn [Swarm.world Swarm.self] in Hrun.
    apply run_keeps in Hrun as (? & ? & ? & ? & _); done.
  - intros agent_sequence text cv o s' Hrun.
    unfold Swarm.multi_agent_run, bind at 1 in Hrun.
    rewrite merge_context in Hrun by done.
    apply multi_agent_loop_keeps in Hrun; [exact Hrun|].
    pose proof (ctx_ok_entries s Hctx) as Hx. apply lookup_lt_Some in Hx.
    unfold ctx_ok, set_heap. cbn [Swarm.self Swarm.world w_heap].
    by rewrite list_lookup_insert_eq.
Qed.

Lemma invocations_only_extend_history_witness :
  ∃ o s',
    Swarm.multi_agent_run ["A"; "ghost"] "go" None
                          (Sample.state_five Sample.failing) = (o, s') ∧
    Sample.five `prefix_of` Swarm.conversation_history (Swarm.self s') ∧
    Swarm.agents (Swarm.self s') = [("A", Sample.agent_A); ("B", Sample.agent_B)].
Proof.
  destruct (Swarm.multi_agent_run ["A"; "ghost"] "go" None
              (Sample.state_five Sample.failing)) as [o s'] eqn:Hrun.
  exists o, s'. split; [reflexivity|].
  destruct (invocations_only_extend_history (Sample.state_five Sample.failing)
              eq_refl) as (_ & _ & Hmulti).
  apply Hmulti in Hrun as (Hpre & Hags & _). split; [exact Hpre | exact Hags].
Defined.

(** ** Context values that cannot be saved *)



